(** * Bakery market-basket analysis: the counting core of [app.py]

    A shallow embedding of the computations of [src/app.py]: the row filters,
    the grouping of rows by transaction, the pair counter of
    [get_item_pairs], the item statistics of [get_item_stats], the ranking
    calls [Counter.most_common] and [Series.head], the average basket size
    and the heat-map pivot of the last tab.

    Conventions.
    - A data frame is the list of its rows, in row order.  Every row carries
      its three columns ([TransactionNo], [Items], [Daypart]); missing values
      (NaN) are outside the model.
    - [TransactionNo] is an integer, as in [Bakery.csv].
    - Item and day-part labels are strings, compared as Python compares
      [str]: lexicographically by code point, which on UTF-8 bytes is
      [String.compare].
    - A [Counter] is a dict: an association list in insertion order with
      unique keys.  Insertion order is observable through [most_common].
    - A Python call either returns a value or raises; see [outcome]. *)

From Stdlib Require Import List Bool Arith ZArith QArith Lia.
From Stdlib Require Import Ascii String.
From Stdlib Require Import Permutation Sorted.
Import ListNotations.

Local Open Scope list_scope.
Local Open Scope Z_scope.

(** ** Python outcomes *)

Inductive outcome (A : Type) : Type :=
| Returns (a : A)
| Raises (exception : string).

Arguments Returns {A} a.
Arguments Raises {A} exception.

(** ** Stable sorting, as Python's [sorted] and pandas' [sort_values] *)

Section StableSort.
Context {A : Type} (leb : A -> A -> bool).

(** [x] was in front of every element of [l]; it stays in front of the
    elements it is equivalent to. *)
Fixpoint insert_sorted (x : A) (l : list A) : list A :=
  match l with
  | [] => [x]
  | y :: l' => if leb x y then x :: y :: l' else y :: insert_sorted x l'
  end.

Fixpoint stable_sort (l : list A) : list A :=
  match l with
  | [] => []
  | x :: l' => insert_sorted x (stable_sort l')
  end.
End StableSort.

(** [sorted(xs)] on strings and on integers. *)
Definition sorted_str (l : list string) : list string := stable_sort String.leb l.
Definition sorted_Z (l : list Z) : list Z := stable_sort Z.leb l.

(** ** The data frame *)

Record Row : Type := mkRow {
  TransactionNo : Z;
  Items : string;
  Daypart : string
}.

Definition DataFrame : Type := list Row.

(** [series.isin(values)] on one cell. *)
Definition isin (x : string) (values : list string) : bool :=
  existsb (String.eqb x) values.

(** Truth value of [f and len(f) > 0] (and of a bare [if f:]) for an optional
    list: [None] and [[]] are both false. *)
Definition active (f : option (list string)) : bool :=
  match f with
  | None => false
  | Some l => negb (Nat.eqb (List.length l) 0)
  end.

Definition filter_values (f : option (list string)) : list string :=
  match f with
  | None => []
  | Some l => l
  end.

(** Lines 28-34 of [get_item_pairs] (and lines 85-89 of the page body). *)
Definition filtered_df (df : DataFrame)
    (daypart_filter items_filter : option (list string)) : DataFrame :=
  let fdf := df in
  let fdf :=
    if active daypart_filter
    then filter (fun r => isin (Daypart r) (filter_values daypart_filter)) fdf
    else fdf in
  let fdf :=
    if active items_filter
    then filter (fun r => isin (Items r) (filter_values items_filter)) fdf
    else fdf in
  fdf.

(** [df['c'].unique()]: distinct values in order of first appearance. *)
Fixpoint unique {A : Type} (eqb : A -> A -> bool) (l : list A) : list A :=
  match l with
  | [] => []
  | x :: l' => x :: filter (fun y => negb (eqb x y)) (unique eqb l')
  end.

(** [fdf.groupby('TransactionNo')['Items'].apply(list)]: one entry per
    distinct transaction number, in ascending key order, holding the items
    of its rows in row order. *)
Definition groupby_TransactionNo (fdf : DataFrame) : list (Z * list string) :=
  map (fun t => (t, map Items (filter (fun r => Z.eqb (TransactionNo r) t) fdf)))
      (sorted_Z (unique Z.eqb (map TransactionNo fdf))).

(** ** Counter *)

Definition Pair : Type := (string * string)%type.

Definition Pair_eqb (p q : Pair) : bool :=
  String.eqb (fst p) (fst q) && String.eqb (snd p) (snd q).

Section Counter.
Context {K : Type} (K_eqb : K -> K -> bool).

Definition Counter : Type := list (K * Z).

(** [c[k]]: a missing key reads as 0. *)
Fixpoint counter_get (c : Counter) (k : K) : Z :=
  match c with
  | [] => 0
  | (k', v) :: c' => if K_eqb k k' then v else counter_get c' k
  end.

(** [c[k] += 1]: an existing key keeps its position, a new key goes last. *)
Fixpoint counter_incr (c : Counter) (k : K) : Counter :=
  match c with
  | [] => [(k, 1)]
  | (k', v) :: c' =>
      if K_eqb k k' then (k', v + 1) :: c' else (k', v) :: counter_incr c' k
  end.

Definition counter_update (c : Counter) (ks : list K) : Counter :=
  fold_left counter_incr ks c.

(** Number of occurrences of [k] in a list of keys. *)
Definition occurrences (k : K) (ks : list K) : Z :=
  Z.of_nat (List.length (filter (K_eqb k) ks)).

(** The invariant of a counter that was only ever incremented: a dict has
    each key once, and every count is at least 1. *)
Definition counter_wf (c : Counter) : Prop :=
  NoDup (map fst c) /\ Forall (fun e => 1 <= snd e) c.
End Counter.

Arguments Counter K : clear implicits.

(** ** [get_item_pairs] *)

(** [itertools.combinations(l, 2)]. *)
Fixpoint combinations2 {A : Type} (l : list A) : list (A * A) :=
  match l with
  | [] => []
  | x :: l' => map (fun y => (x, y)) l' ++ combinations2 l'
  end.

(** [list(set(items))].  The iteration order of a set is unspecified; the
    only consumer sorts the list, so first-appearance order stands for it. *)
Definition unique_items (items : list string) : list string :=
  unique String.eqb items.

(** The body of the loop, for one transaction. *)
Definition basket_pairs (items : list string) : list Pair :=
  let u := unique_items items in
  if (2 <=? List.length u)%nat then combinations2 (sorted_str u) else [].

Definition count_pairs (transactions : list (Z * list string)) : Counter Pair :=
  fold_left (fun pair_counter items =>
               counter_update Pair_eqb pair_counter (basket_pairs items))
            (map snd transactions) [].

Definition get_item_pairs (df : DataFrame)
    (daypart_filter items_filter : option (list string))
  : outcome (Counter Pair) :=
  let fdf := filtered_df df daypart_filter items_filter in
  let transactions := groupby_TransactionNo fdf in
  Returns (count_pairs transactions).

(** ** Vocabulary of the statements about baskets

    These are not in the source; they say in terms of rows what the
    specification says about baskets. *)

(** The specification's reading of one optional filter: an absent or empty
    filter lets every label pass. *)
Definition spec_passes (f : option (list string)) (x : string) : bool :=
  match f with
  | None => true
  | Some [] => true
  | Some l => existsb (String.eqb x) l
  end.

(** The specification's filter stage: both filters at once. *)
Definition spec_retained (df : DataFrame)
    (segment_filter item_filter : option (list string)) : DataFrame :=
  filter (fun r => spec_passes segment_filter (Daypart r)
                   && spec_passes item_filter (Items r)) df.

(** Transaction [t] has a row with item [x]. *)
Definition bought (fdf : DataFrame) (t : Z) (x : string) : bool :=
  existsb (fun r => Z.eqb (TransactionNo r) t && String.eqb (Items r) x) fdf.

(** The transactions in which [a] and [b] were both bought. *)
Definition baskets_with (fdf : DataFrame) (a b : string) : list Z :=
  filter (fun t => bought fdf t a && bought fdf t b)
         (unique Z.eqb (map TransactionNo fdf)).

(** ** Rankings *)

(** Sort key of a descending sort by count: [x] may stay in front of [y]
    when its count is not smaller. *)
Definition count_desc {K : Type} (x y : K * Z) : bool := snd y <=? snd x.

(** [series.value_counts()]: the rows are counted per label, labels in order
    of first appearance, then sorted by count, largest first.  Labels with
    equal counts keep their order of appearance (a stable sort, as pandas
    does on the short tables the page shows); no theorem below relies on the
    order of such labels. *)
Definition value_counts (col : list string) : list (string * Z) :=
  stable_sort count_desc (counter_update String.eqb [] col).

Definition get_item_stats (df : DataFrame) : outcome (list (string * Z)) :=
  Returns (value_counts (map Items df)).

(** [series.head(n)], that is [series.iloc[:n]]: a negative [n] keeps all
    but the last [-n] entries. *)
Definition head {A : Type} (n : Z) (l : list A) : list A :=
  if n <? 0
  then firstn (List.length l - Z.to_nat (- n)) l
  else firstn (Z.to_nat n) l.

(** [counter.most_common(n)] with an integer [n], that is
    [heapq.nlargest(n, counter.items(), key=itemgetter(1))]: the first [n]
    entries of the stable descending sort by count; for [n <= 0] the list
    built by [nlargest] is empty and is returned as it is. *)
Definition most_common {K : Type} (c : Counter K) (n : Z)
  : outcome (list (K * Z)) :=
  if n <? 0 then Returns []
  else Returns (firstn (Z.to_nat n) (stable_sort count_desc c)).

(** Python's order on tuples of two labels. *)
Definition Pair_ltb (p q : Pair) : bool :=
  String.ltb (fst p) (fst q)
  || (String.eqb (fst p) (fst q) && String.ltb (snd p) (snd q)).

(** The specification's tie rule, on a ranking of pairs: of two neighbours
    with the same count, the first has the smaller key. *)
Fixpoint spec_ties_ascending (ranking : list (Pair * Z)) : bool :=
  match ranking with
  | x :: (y :: _) as rest =>
      (negb (snd x =? snd y) || Pair_ltb (fst x) (fst y))
      && spec_ties_ascending rest
  | _ => true
  end.

(** ** Metrics *)

(** [series.nunique()]. *)
Definition nunique_TransactionNo (fdf : DataFrame) : nat :=
  List.length (unique Z.eqb (map TransactionNo fdf)).

(** Python's [a / b] on integers.  The float result is the rounding of the
    exact quotient, which is what the model keeps. *)
Definition truediv (a b : Z) : outcome Q :=
  if b =? 0 then Raises "ZeroDivisionError"
  else Returns (inject_Z a / inject_Z b)%Q.

(** Line 100: [len(filtered_df) / max(filtered_df['TransactionNo'].nunique(), 1)]. *)
Definition avg_basket (fdf : DataFrame) : outcome Q :=
  truediv (Z.of_nat (List.length fdf))
          (Z.max (Z.of_nat (nunique_TransactionNo fdf)) 1).

(** ** The heat-map pivot *)

Definition daypart_order : list string :=
  ["Morning"; "Afternoon"; "Evening"; "Night"]%string.

(** Line 245. *)
Definition top_items_list (df : DataFrame) : list string :=
  map fst (head 15 (value_counts (map Items df))).

Record Frame (V : Type) : Type := mkFrame {
  index : list string;
  columns : list string;
  values : list (list V)
}.

Arguments mkFrame {V} index columns values.
Arguments index {V} f.
Arguments columns {V} f.
Arguments values {V} f.

(** Number of rows of [sel] with the given day part and item. *)
Definition group_size (sel : DataFrame) (daypart item : string) : Z :=
  Z.of_nat (List.length
    (filter (fun r => String.eqb (Daypart r) daypart && String.eqb (Items r) item) sel)).

(** [sel.groupby(['Daypart', 'Items']).size().unstack(fill_value=0)]: the
    observed day parts label the rows and the observed items the columns,
    each in ascending order; a combination that was not observed holds 0. *)
Definition size_unstack (sel : DataFrame) : Frame Z :=
  let idx := sorted_str (unique String.eqb (map Daypart sel)) in
  let cols := sorted_str (unique String.eqb (map Items sel)) in
  mkFrame idx cols (map (fun s => map (fun i => group_size sel s i) cols) idx).

Fixpoint frame_row {V : Type} (idx : list string) (vals : list (list V))
    (label : string) : option (list V) :=
  match idx, vals with
  | s :: idx', row :: vals' =>
      if String.eqb s label then Some row else frame_row idx' vals' label
  | _, _ => None
  end.

(** [frame.reindex(labels)]: the rows are taken in the order of [labels]; a
    label the frame does not have yields a row of NaN ([None]), and the
    integer cells become floats ([Some n]). *)
Definition reindex (fr : Frame Z) (labels : list string) : Frame (option Z) :=
  mkFrame labels (columns fr)
    (map (fun s =>
            match frame_row (index fr) (values fr) s with
            | Some row => map Some row
            | None => map (fun _ => None) (columns fr)
            end) labels).

(** Lines 246-247. *)
Definition heatmap_data (df : DataFrame) (top_items_list daypart_order : list string)
  : Frame (option Z) :=
  let sel := filter (fun r => isin (Items r) top_items_list) df in
  reindex (size_unstack sel) daypart_order.

(** ** The page body

    The widgets hand the page plain lists: [daypart_filter] and
    [items_filter] come from multiselects, [top_n] from a slider. *)

(** Truth value of a list. *)
Definition truthy {A : Type} (l : list A) : bool :=
  negb (Nat.eqb (List.length l) 0).

(** [items_filter if items_filter else None]. *)
Definition or_None (l : list string) : option (list string) :=
  if truthy l then Some l else None.

(** Lines 85-89. *)
Definition page_filtered_df (df : DataFrame)
    (daypart_filter items_filter : list string) : DataFrame :=
  let fdf := df in
  let fdf :=
    if truthy daypart_filter
    then filter (fun r => isin (Daypart r) daypart_filter) fdf
    else fdf in
  let fdf :=
    if truthy items_filter
    then filter (fun r => isin (Items r) items_filter) fdf
    else fdf in
  fdf.

(** Line 98: [filtered_df['Items'].nunique()]. *)
Definition nunique_Items (fdf : DataFrame) : nat :=
  List.length (unique String.eqb (map Items fdf)).

(** Line 76: [sorted(df['Items'].unique())]. *)
Definition items_options (df : DataFrame) : list string :=
  sorted_str (unique String.eqb (map Items df)).

(** Line 111. *)
Definition item_counts (fdf : DataFrame) (top_n : Z) : list (string * Z) :=
  head top_n (value_counts (map Items fdf)).

(** Sequencing of calls that may raise. *)
Definition bind {A B : Type} (m : outcome A) (k : A -> outcome B) : outcome B :=
  match m with
  | Returns a => k a
  | Raises e => Raises e
  end.

Notation "x <- m ;; k" := (bind m (fun x => k))
  (at level 61, m at next level, right associativity).

(** *** The pairs tab *)

Record PairsRow : Type := mkPairsRow {
  Item_1 : string;
  Item_2 : string;
  Count : Z;
  Pair_label : string
}.

Definition pair_label (pair : Pair) : string :=
  (fst pair ++ " + " ++ snd pair)%string.

(** Lines 128-155: [None] stands for the branch that only shows the
    "No item pairs found" note.  A data frame built from an empty list has
    no column, so [pairs_df['Item 1']] raises [KeyError] on it. *)
Definition tab2_pairs_df (df : DataFrame)
    (daypart_filter items_filter : list string) (top_n : Z)
  : outcome (option (list PairsRow)) :=
  pair_counter <- get_item_pairs df (Some daypart_filter) (or_None items_filter) ;;
  if truthy pair_counter then
    top_pairs <- most_common pair_counter top_n ;;
    match top_pairs with
    | [] => Raises "KeyError"
    | _ :: _ =>
        Returns (Some (map (fun e =>
                   mkPairsRow (fst (fst e)) (snd (fst e)) (snd e)
                              (pair_label (fst e))) top_pairs))
    end
  else Returns None.

(** *** The day-part tab *)

(** A cell of a float series. *)
Inductive float : Type :=
| Num (q : Q)
| Inf
| NegInf
| NaN.

(** Element-wise [/] of two integer cells: numpy divides by zero without
    raising. *)
Definition cell_truediv (a b : Z) : float :=
  if b =? 0
  then (if a =? 0 then NaN else if a <? 0 then NegInf else Inf)
  else Num (inject_Z a / inject_Z b)%Q.

(** The rows of one day part. *)
Definition daypart_rows (df : DataFrame) (daypart : string) : DataFrame :=
  filter (fun r => String.eqb (Daypart r) daypart) df.

(** The keys of [df.groupby('Daypart')], in ascending order. *)
Definition daypart_keys (df : DataFrame) : list string :=
  sorted_str (unique String.eqb (map Daypart df)).

(** Line 176: [df.groupby('Daypart').size()]. *)
Definition items_by_daypart (df : DataFrame) : list (string * Z) :=
  map (fun s => (s, Z.of_nat (List.length (daypart_rows df s)))) (daypart_keys df).

(** Line 177: [df.groupby('Daypart')['TransactionNo'].nunique()]. *)
Definition trans_by_daypart (df : DataFrame) : list (string * Z) :=
  map (fun s => (s, Z.of_nat (nunique_TransactionNo (daypart_rows df s))))
      (daypart_keys df).

(** [a / b] on two series with the same index. *)
Definition series_truediv (a b : list (string * Z)) : list (string * float) :=
  map (fun ab => (fst (fst ab), cell_truediv (snd (fst ab)) (snd (snd ab))))
      (combine a b).

Fixpoint series_get {V : Type} (s : list (string * V)) (label : string)
  : option V :=
  match s with
  | [] => None
  | (l, v) :: s' => if String.eqb l label then Some v else series_get s' label
  end.

(** [series.reindex(labels)] on a float series. *)
Definition series_reindex (s : list (string * float)) (labels : list string)
  : list (string * float) :=
  map (fun l => (l, match series_get s l with Some v => v | None => NaN end))
      labels.

(** Line 164. *)
Definition daypart_trans (df : DataFrame) : list (string * float) :=
  series_reindex
    (map (fun e => (fst e, Num (inject_Z (snd e)))) (trans_by_daypart df))
    daypart_order.

(** Line 178. *)
Definition avg_basket_by_daypart (df : DataFrame) : list (string * float) :=
  series_reindex (series_truediv (items_by_daypart df) (trans_by_daypart df))
                 daypart_order.

(** Lines 194-197, for one day part: the table of the expander, or [None]
    when no expander is drawn. *)
Definition daypart_top_items (df : DataFrame) (daypart : string)
  : option (list (string * Z)) :=
  if isin daypart (map Daypart df) then
    let daypart_data :=
      head 10 (value_counts (map Items (daypart_rows df daypart))) in
    if (0 <? List.length daypart_data)%nat then Some daypart_data else None
  else None.

(** *** The comparison tab *)

Record ComparisonRow : Type := mkComparisonRow {
  Time_of_Day : string;
  Pair_name : string;
  Pair_count : Z
}.

(** Lines 213-222, over the day parts still to visit. *)
Fixpoint daypart_pairs_rows (df : DataFrame) (items_filter : list string)
    (dayparts : list string) : outcome (list ComparisonRow) :=
  match dayparts with
  | [] => Returns []
  | daypart :: rest =>
      pairs <- get_item_pairs df (Some [daypart]) (or_None items_filter) ;;
      top <- most_common pairs 10 ;;
      more <- daypart_pairs_rows df items_filter rest ;;
      Returns (map (fun e => mkComparisonRow daypart (pair_label (fst e)) (snd e))
                   top ++ more)
  end.

Definition daypart_pairs_data (df : DataFrame) (items_filter : list string)
  : outcome (list ComparisonRow) :=
  daypart_pairs_rows df items_filter daypart_order.

(** Lines 224-261: the comparison rows with the heat map, or [None] for the
    "Not enough data" note. *)
Definition tab4_heatmap (df : DataFrame) (items_filter : list string)
  : outcome (option (list ComparisonRow * Frame (option Z))) :=
  data <- daypart_pairs_data df items_filter ;;
  if truthy data
  then Returns (Some (data, heatmap_data df (top_items_list df) daypart_order))
  else Returns None.

(** ** Vocabulary of the statements about totals *)

(** Sum of the counts of a table. *)
Definition counter_total {K : Type} (c : Counter K) : Z :=
  fold_right Z.add 0 (map snd c).

(** Sum of a list of integers. *)
Definition Zsum (l : list Z) : Z := fold_right Z.add 0 l.

(** * Properties *)

(** ** The order on labels *)

Module StrOrder.

Lemma compare_refl (s : string) : String.compare s s = Eq.
Proof.
  induction s as [|a s IH]; simpl; [reflexivity|].
  unfold Ascii.compare. now rewrite N.compare_refl.
Qed.

Lemma compare_lt_trans (s1 : string) :
  forall s2 s3,
    String.compare s1 s2 = Lt -> String.compare s2 s3 = Lt ->
    String.compare s1 s3 = Lt.
Proof.
  induction s1 as [|a s1 IH]; intros [|b s2] [|c s3]; simpl;
    try discriminate; try reflexivity.
  unfold Ascii.compare.
  destruct (N.compare_spec (N_of_ascii a) (N_of_ascii b)) as [Hab|Hab|Hab];
    destruct (N.compare_spec (N_of_ascii b) (N_of_ascii c)) as [Hbc|Hbc|Hbc];
    try discriminate; intros H1 H2.
  - rewrite Hab, Hbc, N.compare_refl. eauto.
  - rewrite Hab. now apply N.compare_lt_iff in Hbc as ->.
  - rewrite <- Hbc. now apply N.compare_lt_iff in Hab as ->.
  - assert (Hac : (N_of_ascii a < N_of_ascii c)%N) by lia.
    now apply N.compare_lt_iff in Hac as ->.
Qed.

Lemma ltb_irrefl (s : string) : String.ltb s s = false.
Proof. unfold String.ltb. now rewrite compare_refl. Qed.

Lemma ltb_trans (a b c : string) :
  String.ltb a b = true -> String.ltb b c = true -> String.ltb a c = true.
Proof.
  unfold String.ltb.
  destruct (String.compare a b) eqn:Hab; try discriminate.
  destruct (String.compare b c) eqn:Hbc; try discriminate.
  now rewrite (compare_lt_trans _ _ _ Hab Hbc).
Qed.

Lemma ltb_neq (a b : string) : String.ltb a b = true -> a <> b.
Proof. intros H ->. rewrite ltb_irrefl in H. discriminate. Qed.

Lemma leb_iff (a b : string) :
  String.leb a b = true <-> String.ltb a b = true \/ a = b.
Proof.
  unfold String.leb, String.ltb. split.
  - destruct (String.compare a b) eqn:H; try discriminate; auto.
    right. now apply String.compare_eq_iff.
  - intros [H| ->]; [|now rewrite compare_refl].
    now destruct (String.compare a b).
Qed.

Lemma leb_trans (a b c : string) :
  String.leb a b = true -> String.leb b c = true -> String.leb a c = true.
Proof.
  rewrite !leb_iff. intros [H1| ->] [H2| ->]; auto.
  left. eapply ltb_trans; eauto.
Qed.

End StrOrder.

(** ** Stable sorting *)

Section StableSortFacts.
Context {A : Type} (leb : A -> A -> bool).

Lemma insert_sorted_perm (x : A) (l : list A) :
  Permutation (insert_sorted leb x l) (x :: l).
Proof.
  induction l as [|y l IH]; simpl; [reflexivity|].
  destruct (leb x y); [reflexivity|].
  rewrite IH. apply perm_swap.
Qed.

Lemma stable_sort_perm (l : list A) : Permutation (stable_sort leb l) l.
Proof.
  induction l as [|x l IH]; simpl; [reflexivity|].
  rewrite insert_sorted_perm. now constructor.
Qed.

Lemma stable_sort_In (l : list A) (x : A) :
  In x (stable_sort leb l) <-> In x l.
Proof.
  split; apply Permutation_in;
    [apply stable_sort_perm | symmetry; apply stable_sort_perm].
Qed.

Lemma stable_sort_length (l : list A) :
  List.length (stable_sort leb l) = List.length l.
Proof. apply Permutation_length, stable_sort_perm. Qed.

Lemma stable_sort_NoDup (l : list A) : NoDup l -> NoDup (stable_sort leb l).
Proof.
  apply Permutation_NoDup. symmetry. apply stable_sort_perm.
Qed.

(** Stability: the elements of one equivalence class keep their order. *)
Lemma insert_sorted_filter (p : A -> bool) (x : A) (l : list A) :
  (forall y, In y l -> p x = true -> p y = true -> leb x y = true) ->
  filter p (insert_sorted leb x l) = filter p (x :: l).
Proof.
  induction l as [|y l IH]; intros Hcls; [reflexivity|].
  simpl. destruct (leb x y) eqn:Hxy; [reflexivity|].
  simpl. rewrite IH by (intros; apply Hcls; simpl; auto).
  simpl. destruct (p x) eqn:Hpx, (p y) eqn:Hpy; try reflexivity.
  rewrite Hcls in Hxy by (simpl; auto). discriminate.
Qed.

Lemma stable_sort_filter (p : A -> bool) (l : list A) :
  (forall x y, p x = true -> p y = true -> leb x y = true) ->
  filter p (stable_sort leb l) = filter p l.
Proof.
  intros Hcls. induction l as [|x l IH]; [reflexivity|].
  simpl stable_sort. rewrite insert_sorted_filter by auto.
  simpl. now rewrite IH.
Qed.

Section Ordered.
Hypothesis leb_total : forall x y, leb x y = true \/ leb y x = true.
Hypothesis leb_trans :
  forall x y z, leb x y = true -> leb y z = true -> leb x z = true.

Lemma insert_sorted_sorted (x : A) (l : list A) :
  StronglySorted (fun a b => leb a b = true) l ->
  StronglySorted (fun a b => leb a b = true) (insert_sorted leb x l).
Proof.
  induction 1 as [|y l Hs IH Hall]; simpl.
  - repeat constructor.
  - destruct (leb x y) eqn:Hxy.
    + constructor; [now constructor|].
      constructor; [assumption|].
      eapply Forall_impl; [|exact Hall]. intros; eauto.
    + constructor; [assumption|].
      rewrite Forall_forall. intros z Hz.
      apply (Permutation_in _ (insert_sorted_perm x l)) in Hz.
      destruct Hz as [<-|Hz].
      * destruct (leb_total x y); congruence.
      * rewrite Forall_forall in Hall. auto.
Qed.

Lemma stable_sort_sorted (l : list A) :
  StronglySorted (fun a b => leb a b = true) (stable_sort leb l).
Proof.
  induction l as [|x l IH]; simpl; [constructor|].
  now apply insert_sorted_sorted.
Qed.
End Ordered.
End StableSortFacts.

Lemma StronglySorted_impl_In {A : Type} (R S : A -> A -> Prop) (l : list A) :
  (forall x y, In x l -> In y l -> x <> y -> R x y -> S x y) ->
  NoDup l -> StronglySorted R l -> StronglySorted S l.
Proof.
  intros HRS Hnd Hs. induction Hs as [|x l Hs IH Hall]; [constructor|].
  inversion Hnd as [|? ? Hx Hnd']; subst.
  constructor.
  - apply IH; [|assumption]. intros; apply HRS; simpl; auto.
  - rewrite Forall_forall in *. intros y Hy.
    apply HRS; simpl; auto. intros ->. contradiction.
Qed.

Lemma StronglySorted_firstn {A : Type} (R : A -> A -> Prop) (n : nat) (l : list A) :
  StronglySorted R l -> StronglySorted R (firstn n l).
Proof.
  intros Hs. revert n.
  induction Hs as [|x l Hs IH Hall]; intros [|n]; simpl; try constructor.
  - apply IH.
  - rewrite Forall_forall in *. intros y Hy. apply Hall.
    rewrite <- (firstn_skipn n l). apply in_or_app. now left.
Qed.

(** [sorted] of distinct labels is strictly ascending. *)
Lemma sorted_str_strict (l : list string) :
  NoDup l -> StronglySorted (fun a b => String.ltb a b = true) (sorted_str l).
Proof.
  intros Hnd. unfold sorted_str.
  apply StronglySorted_impl_In with (R := fun a b => String.leb a b = true).
  - intros x y _ _ Hne Hle. apply StrOrder.leb_iff in Hle as [H|H]; congruence.
  - now apply stable_sort_NoDup.
  - apply stable_sort_sorted.
    + apply String.leb_total.
    + apply StrOrder.leb_trans.
Qed.

(** ** [unique] *)

Section UniqueFacts.
Context {A : Type} (eqb : A -> A -> bool).
Hypothesis eqb_spec : forall x y, reflect (x = y) (eqb x y).

Lemma unique_In (l : list A) (x : A) : In x (unique eqb l) <-> In x l.
Proof.
  induction l as [|a l IH]; simpl; [tauto|].
  rewrite filter_In, IH. split.
  - intros [H|[H _]]; auto.
  - intros [H|H]; auto.
    destruct (eqb_spec a x) as [E|E]; auto.
Qed.

Lemma unique_NoDup (l : list A) : NoDup (unique eqb l).
Proof.
  induction l as [|a l IH]; simpl; constructor.
  - rewrite filter_In. intros [_ H].
    destruct (eqb_spec a a); [discriminate|congruence].
  - now apply NoDup_filter.
Qed.

Lemma existsb_eqb_In (x : A) (l : list A) :
  existsb (eqb x) l = true <-> In x l.
Proof.
  rewrite existsb_exists. split.
  - intros (y & Hy & E). destruct (eqb_spec x y); congruence.
  - intros H. exists x. split; [assumption|].
    destruct (eqb_spec x x); congruence.
Qed.
End UniqueFacts.

Lemma NoDup_two_length {A : Type} (a b : A) (l : list A) :
  NoDup l -> In a l -> In b l -> a <> b -> (2 <= List.length l)%nat.
Proof.
  intros Hnd Ha Hb Hab.
  assert (Hl : (List.length [a; b] <= List.length l)%nat).
  { apply NoDup_incl_length.
    - repeat constructor; simpl; intuition.
    - intros x [<-|[<-|[]]]; assumption. }
  exact Hl.
Qed.

Lemma Permutation_filter_length {A : Type} (f : A -> bool) (l l' : list A) :
  Permutation l l' -> List.length (filter f l) = List.length (filter f l').
Proof.
  induction 1 as [|x l l' _ IH|x y l|l l' l'' _ IH1 _ IH2]; simpl.
  - reflexivity.
  - destruct (f x); simpl; congruence.
  - destruct (f x), (f y); reflexivity.
  - congruence.
Qed.

(** ** [combinations] *)

Section Combinations.
Context {A : Type}.

Lemma combinations2_length (l : list A) :
  (2 * List.length (combinations2 l) = List.length l * (List.length l - 1))%nat.
Proof.
  induction l as [|x l IH]; [reflexivity|].
  simpl combinations2. rewrite length_app, length_map.
  simpl List.length. nia.
Qed.

Lemma combinations2_In (l : list A) (a b : A) :
  In (a, b) (combinations2 l) -> In a l /\ In b l.
Proof.
  induction l as [|x l IH]; simpl; [tauto|].
  rewrite in_app_iff, in_map_iff.
  intros [(y & E & Hy)|H].
  - inversion E; subst. auto.
  - destruct (IH H). auto.
Qed.

Lemma combinations2_NoDup (l : list A) : NoDup l -> NoDup (combinations2 l).
Proof.
  induction 1 as [|x l Hx Hnd IH]; simpl; [constructor|].
  apply NoDup_app.
  - apply Finite.Injective_map_NoDup; [|assumption].
    intros y z E. now inversion E.
  - assumption.
  - intros [a b] H1 H2. apply in_map_iff in H1 as (y & E & _).
    inversion E; subst. apply combinations2_In in H2 as [H2 _]. contradiction.
Qed.

(** On a strictly sorted list the combinations are the ordered pairs. *)
Lemma combinations2_sorted (R : A -> A -> Prop) (l : list A) (a b : A) :
  (forall x, ~ R x x) -> (forall x y, R x y -> R y x -> False) ->
  StronglySorted R l ->
  In (a, b) (combinations2 l) <-> In a l /\ In b l /\ R a b.
Proof.
  intros Hirr Hasym Hs.
  induction Hs as [|x l Hs IH Hall]; simpl; [tauto|].
  rewrite Forall_forall in Hall.
  rewrite in_app_iff, in_map_iff, IH. split.
  - intros [(y & E & Hy)|(Ha & Hb & Hab)]; [|tauto].
    inversion E; subst. auto.
  - intros ([<-|Ha] & [<-|Hb] & Hab).
    + now apply Hirr in Hab.
    + left. now exists b.
    + exfalso. eapply Hasym; eauto.
    + right. auto.
Qed.
End Combinations.

(** ** Counters *)

Section CounterFacts.
Context {K : Type} (K_eqb : K -> K -> bool).
Hypothesis K_eqb_spec : forall x y, reflect (x = y) (K_eqb x y).

Lemma counter_get_incr (c : Counter K) (k k' : K) :
  counter_get K_eqb (counter_incr K_eqb c k) k' =
  counter_get K_eqb c k' + (if K_eqb k' k then 1 else 0).
Proof.
  induction c as [|[k0 v] c IH]; simpl.
  - destruct (K_eqb k' k); reflexivity.
  - destruct (K_eqb_spec k k0) as [->|Hk]; simpl.
    + destruct (K_eqb k' k0); lia.
    + destruct (K_eqb_spec k' k0) as [->|Hk'].
      * destruct (K_eqb_spec k0 k); [congruence|lia].
      * apply IH.
Qed.

Lemma counter_get_update (ks : list K) :
  forall (c : Counter K) (k : K),
    counter_get K_eqb (counter_update K_eqb c ks) k =
    counter_get K_eqb c k + occurrences K_eqb k ks.
Proof.
  unfold counter_update, occurrences.
  induction ks as [|k0 ks IH]; intros c k; simpl; [lia|].
  rewrite IH, counter_get_incr.
  destruct (K_eqb k k0); simpl List.length; lia.
Qed.

Lemma counter_incr_keys (c : Counter K) (k k' : K) :
  In k' (map fst (counter_incr K_eqb c k)) <-> k' = k \/ In k' (map fst c).
Proof.
  induction c as [|[k0 v] c IH]; simpl; [intuition|].
  destruct (K_eqb_spec k k0) as [->|Hk]; simpl.
  - intuition.
  - rewrite IH. intuition.
Qed.

Lemma counter_incr_wf (c : Counter K) (k : K) :
  counter_wf c -> counter_wf (counter_incr K_eqb c k).
Proof.
  unfold counter_wf. induction c as [|[k0 v] c IH]; simpl.
  - intros _. split; repeat constructor; simpl; auto; lia.
  - intros [Hnd Hpos].
    inversion Hnd as [|? ? Hk0 Hnd']; subst.
    inversion Hpos as [|? ? Hv Hpos']; subst. simpl in Hv.
    destruct (K_eqb_spec k k0) as [->|Hk]; simpl.
    + split; constructor; simpl; auto; lia.
    + destruct (IH (conj Hnd' Hpos')) as [IH1 IH2].
      split; constructor; simpl; auto.
      rewrite counter_incr_keys. intros [E|E]; congruence.
Qed.

Lemma counter_update_wf (ks : list K) :
  forall c, counter_wf c -> counter_wf (counter_update K_eqb c ks).
Proof.
  unfold counter_update.
  induction ks as [|k ks IH]; intros c Hc; simpl; [assumption|].
  apply IH, counter_incr_wf, Hc.
Qed.

(** In a well-formed counter the entries are the keys with a non-zero
    reading. *)
Lemma counter_wf_In (c : Counter K) (k : K) (v : Z) :
  counter_wf c ->
  In (k, v) c <-> counter_get K_eqb c k = v /\ 1 <= v.
Proof.
  unfold counter_wf. induction c as [|[k0 v0] c IH]; simpl.
  - intros _. split; [tauto|]. intros [<- H]. lia.
  - intros [Hnd Hpos].
    inversion Hnd as [|? ? Hk0 Hnd']; subst.
    inversion Hpos as [|? ? Hv Hpos']; subst. simpl in Hv.
    specialize (IH (conj Hnd' Hpos')).
    destruct (K_eqb_spec k k0) as [->|Hk].
    + split.
      * intros [E|Hin].
        -- inversion E; subst. auto.
        -- exfalso. apply Hk0. apply in_map_iff. now exists (k0, v).
      * intros [<- _]. now left.
    + rewrite <- IH. split.
      * intros [E|Hin]; [inversion E; congruence|assumption].
      * auto.
Qed.
End CounterFacts.

(** ** Baskets and their pairs *)

Lemma Pair_eqb_spec (p q : Pair) : reflect (p = q) (Pair_eqb p q).
Proof.
  destruct p as [a b], q as [a' b']. unfold Pair_eqb. simpl.
  destruct (String.eqb_spec a a'), (String.eqb_spec b b'); simpl;
    constructor; congruence.
Qed.

Lemma Z_eqb_spec (x y : Z) : reflect (x = y) (Z.eqb x y).
Proof. apply Z.eqb_spec. Qed.

Lemma unique_items_In (items : list string) (x : string) :
  In x (unique_items items) <-> In x items.
Proof. apply unique_In, String.eqb_spec. Qed.

Lemma unique_items_NoDup (items : list string) : NoDup (unique_items items).
Proof. apply unique_NoDup, String.eqb_spec. Qed.

Lemma basket_pairs_In (items : list string) (a b : string) :
  In (a, b) (basket_pairs items) <->
  String.ltb a b = true /\ In a items /\ In b items.
Proof.
  unfold basket_pairs.
  pose proof (unique_items_NoDup items) as Hnd.
  destruct (Nat.leb_spec 2 (List.length (unique_items items))) as [Hk|Hk].
  - rewrite (combinations2_sorted (fun x y => String.ltb x y = true)).
    + unfold sorted_str. rewrite !stable_sort_In, !unique_items_In. tauto.
    + intros x. rewrite StrOrder.ltb_irrefl. discriminate.
    + intros x y Hxy Hyx.
      pose proof (StrOrder.ltb_trans _ _ _ Hxy Hyx) as H.
      rewrite StrOrder.ltb_irrefl in H. discriminate.
    + now apply sorted_str_strict.
  - split; [intros []|]. intros (Hlt & Ha & Hb).
    apply unique_items_In in Ha, Hb.
    pose proof (NoDup_two_length a b _ Hnd Ha Hb (StrOrder.ltb_neq _ _ Hlt)).
    lia.
Qed.

Lemma basket_pairs_NoDup (items : list string) : NoDup (basket_pairs items).
Proof.
  unfold basket_pairs.
  destruct (2 <=? List.length (unique_items items))%nat; [|constructor].
  apply combinations2_NoDup. unfold sorted_str.
  apply stable_sort_NoDup, unique_items_NoDup.
Qed.

Lemma basket_pairs_length (items : list string) :
  (2 * List.length (basket_pairs items) =
   List.length (unique_items items) * (List.length (unique_items items) - 1))%nat.
Proof.
  unfold basket_pairs.
  destruct (Nat.leb_spec 2 (List.length (unique_items items))) as [Hk|Hk].
  - etransitivity; [apply combinations2_length|].
    unfold sorted_str. now rewrite stable_sort_length.
  - simpl List.length.
    destruct (List.length (unique_items items)) as [|[|k]]; simpl; lia.
Qed.

Lemma isin_In (x : string) (l : list string) : isin x l = true <-> In x l.
Proof. apply existsb_eqb_In, String.eqb_spec. Qed.

(** A basket holds a pair at most once. *)
Lemma occurrences_NoDup {K : Type} (K_eqb : K -> K -> bool)
    (K_eqb_spec : forall x y, reflect (x = y) (K_eqb x y))
    (k : K) (ks : list K) :
  NoDup ks ->
  occurrences K_eqb k ks = if existsb (K_eqb k) ks then 1 else 0.
Proof.
  unfold occurrences. induction 1 as [|x ks Hx Hnd IH]; [reflexivity|].
  simpl. destruct (K_eqb_spec k x) as [->|Hk]; simpl.
  - assert (E : filter (K_eqb x) ks = []).
    { rewrite <- (filter_false ks). apply filter_ext_in. intros y Hy.
      destruct (K_eqb_spec x y); [congruence|reflexivity]. }
    now rewrite E.
  - exact IH.
Qed.

Lemma basket_pairs_occurrences (items : list string) (a b : string) :
  occurrences Pair_eqb (a, b) (basket_pairs items) =
  if String.ltb a b && (isin a items && isin b items) then 1 else 0.
Proof.
  rewrite (occurrences_NoDup _ Pair_eqb_spec) by apply basket_pairs_NoDup.
  assert (E : existsb (Pair_eqb (a, b)) (basket_pairs items) =
              String.ltb a b && (isin a items && isin b items)).
  { apply Bool.eq_iff_eq_true.
    rewrite (existsb_eqb_In _ Pair_eqb_spec), basket_pairs_In.
    rewrite !andb_true_iff, !isin_In. tauto. }
  now rewrite E.
Qed.

Lemma fold_pairs_wf (bs : list (list string)) :
  forall c,
    counter_wf c ->
    counter_wf (fold_left (fun pc items =>
                  counter_update Pair_eqb pc (basket_pairs items)) bs c).
Proof.
  induction bs as [|items bs IH]; intros c Hc; simpl; [assumption|].
  apply IH, (counter_update_wf _ Pair_eqb_spec), Hc.
Qed.

Lemma fold_pairs_get (bs : list (list string)) (a b : string) :
  forall c,
    counter_get Pair_eqb
      (fold_left (fun pc items =>
         counter_update Pair_eqb pc (basket_pairs items)) bs c) (a, b) =
    counter_get Pair_eqb c (a, b) +
    (if String.ltb a b
     then Z.of_nat (List.length
            (filter (fun items => isin a items && isin b items) bs))
     else 0).
Proof.
  induction bs as [|items bs IH]; intros c; simpl.
  - destruct (String.ltb a b); simpl; lia.
  - rewrite IH, (counter_get_update _ Pair_eqb_spec), basket_pairs_occurrences.
    destruct (String.ltb a b); simpl; [|lia].
    destruct (isin a items && isin b items); simpl List.length; lia.
Qed.

Lemma count_pairs_wf (transactions : list (Z * list string)) :
  counter_wf (count_pairs transactions).
Proof.
  apply fold_pairs_wf. split; constructor.
Qed.

(** ** Grouping *)

Lemma sorted_Z_unique_perm (l : list Z) :
  Permutation (sorted_Z (unique Z.eqb l)) (unique Z.eqb l).
Proof. apply stable_sort_perm. Qed.

Lemma groupby_keys (fdf : DataFrame) :
  map fst (groupby_TransactionNo fdf) =
  sorted_Z (unique Z.eqb (map TransactionNo fdf)).
Proof.
  unfold groupby_TransactionNo. rewrite map_map. simpl. apply map_id.
Qed.

Lemma groupby_key_In (fdf : DataFrame) (t : Z) :
  In t (map fst (groupby_TransactionNo fdf)) <->
  exists r, In r fdf /\ TransactionNo r = t.
Proof.
  rewrite groupby_keys. unfold sorted_Z.
  rewrite stable_sort_In, (unique_In _ Z_eqb_spec), in_map_iff.
  split; intros (r & H1 & H2); exists r; auto.
Qed.

Lemma groupby_In (fdf : DataFrame) (t : Z) (items : list string) :
  In (t, items) (groupby_TransactionNo fdf) ->
  items = map Items (filter (fun r => Z.eqb (TransactionNo r) t) fdf) /\
  In t (map fst (groupby_TransactionNo fdf)).
Proof.
  intros H. split.
  - unfold groupby_TransactionNo in H. apply in_map_iff in H as (t' & E & _).
    now inversion E; subst.
  - apply in_map_iff. now exists (t, items).
Qed.

Lemma isin_group (fdf : DataFrame) (t : Z) (x : string) :
  isin x (map Items (filter (fun r => Z.eqb (TransactionNo r) t) fdf)) =
  bought fdf t x.
Proof.
  apply Bool.eq_iff_eq_true. unfold bought.
  rewrite isin_In, in_map_iff, existsb_exists. split.
  - intros (r & E & Hr). apply filter_In in Hr as [Hr Ht].
    exists r. split; [assumption|]. rewrite Ht. simpl. subst x.
    apply String.eqb_refl.
  - intros (r & Hr & H). apply andb_true_iff in H as [Ht Hx].
    apply String.eqb_eq in Hx.
    exists r. split; [assumption|]. apply filter_In. auto.
Qed.

(** What [get_item_pairs] reads for a pair: the number of transactions in
    which both items were bought, under the canonical key only. *)
Lemma count_pairs_groupby (fdf : DataFrame) (a b : string) :
  counter_get Pair_eqb (count_pairs (groupby_TransactionNo fdf)) (a, b) =
  if String.ltb a b
  then Z.of_nat (List.length (baskets_with fdf a b))
  else 0.
Proof.
  unfold count_pairs. rewrite fold_pairs_get. simpl.
  destruct (String.ltb a b); [|reflexivity]. f_equal. f_equal.
  unfold groupby_TransactionNo, baskets_with. rewrite map_map. simpl.
  rewrite <- (Permutation_filter_length _ _ _
                (sorted_Z_unique_perm (map TransactionNo fdf))).
  generalize (sorted_Z (unique Z.eqb (map TransactionNo fdf))).
  intros keys. induction keys as [|t keys IH]; [reflexivity|].
  simpl. rewrite !isin_group.
  destruct (bought fdf t a && bought fdf t b); simpl; congruence.
Qed.

(** ** The filter stage *)

Lemma filter_filter_andb {A : Type} (f g : A -> bool) (l : list A) :
  filter g (filter f l) = filter (fun x => f x && g x) l.
Proof.
  induction l as [|x l IH]; [reflexivity|].
  simpl. destruct (f x); simpl; [destruct (g x)|]; congruence.
Qed.

Lemma active_passes (f : option (list string)) (x : string) :
  (if active f then isin x (filter_values f) else true) = spec_passes f x.
Proof. destruct f as [[|y l]|]; reflexivity. Qed.

Lemma filtered_df_spec (df : DataFrame) (dp it : option (list string)) :
  filtered_df df dp it = spec_retained df dp it.
Proof.
  unfold filtered_df, spec_retained.
  transitivity
    (filter (fun r =>
       (if active dp then isin (Daypart r) (filter_values dp) else true)
       && (if active it then isin (Items r) (filter_values it) else true)) df).
  - destruct (active dp), (active it).
    + apply filter_filter_andb.
    + apply filter_ext. intros r. now rewrite andb_true_r.
    + reflexivity.
    + symmetry. apply filter_true.
  - apply filter_ext. intros r. now rewrite !active_passes.
Qed.

Lemma groupby_length (fdf : DataFrame) :
  List.length (groupby_TransactionNo fdf) = nunique_TransactionNo fdf.
Proof.
  unfold groupby_TransactionNo, nunique_TransactionNo, sorted_Z.
  now rewrite length_map, stable_sort_length.
Qed.

Lemma groupby_NoDup (fdf : DataFrame) :
  NoDup (map fst (groupby_TransactionNo fdf)).
Proof.
  rewrite groupby_keys. unfold sorted_Z.
  apply stable_sort_NoDup, unique_NoDup, Z_eqb_spec.
Qed.

Lemma bought_iff (fdf : DataFrame) (t : Z) (x : string) :
  bought fdf t x = true <->
  exists r, In r fdf /\ TransactionNo r = t /\ Items r = x.
Proof.
  unfold bought. rewrite existsb_exists.
  split; intros (r & Hr & H); exists r; split; try assumption.
  - apply andb_true_iff in H as [Ht Hx].
    apply Z.eqb_eq in Ht. apply String.eqb_eq in Hx. auto.
  - destruct H as [Ht Hx]. apply andb_true_iff.
    split; [now apply Z.eqb_eq|now apply String.eqb_eq].
Qed.

Lemma groupby_basket (fdf : DataFrame) :
  Forall (fun g =>
            NoDup (unique_items (snd g)) /\ snd g <> [] /\
            forall x, In x (unique_items (snd g)) <-> bought fdf (fst g) x = true)
         (groupby_TransactionNo fdf).
Proof.
  rewrite Forall_forall. intros [t items] Hg.
  apply groupby_In in Hg as [-> Ht]. simpl.
  split; [apply unique_items_NoDup|]. split.
  - apply groupby_key_In in Ht as (r & Hr & E).
    intros Hnil. apply map_eq_nil in Hnil.
    assert (Hin : In r (filter (fun r0 => TransactionNo r0 =? t) fdf)).
    { apply filter_In. split; [assumption|]. now apply Z.eqb_eq. }
    rewrite Hnil in Hin. contradiction.
  - intros x. now rewrite unique_items_In, <- isin_In, isin_group.
Qed.

(** ** C1 *)

(** C1. Pair counting: a basket yields the C(k,2) combinations of its k
    distinct items, each once and under the sorted key (hence none when
    k < 2); and what the returned table reads for a pair (a, b) is the
    number of filtered transactions in which both a and b were bought, one
    per transaction however many rows it has, kept under the key with
    a < b. *)
Theorem get_item_pairs_counts (df : DataFrame) (dp it : option (list string)) :
  (forall items : list string,
      (2 * List.length (basket_pairs items) =
       List.length (unique_items items) * (List.length (unique_items items) - 1))%nat
      /\ NoDup (basket_pairs items)
      /\ (forall a b, In (a, b) (basket_pairs items) <->
                      String.ltb a b = true /\ In a items /\ In b items)
      /\ ((List.length (unique_items items) < 2)%nat -> basket_pairs items = []))
  /\ exists c,
      get_item_pairs df dp it = Returns c
      /\ forall a b,
          counter_get Pair_eqb c (a, b) =
          if String.ltb a b
          then Z.of_nat (List.length (baskets_with (filtered_df df dp it) a b))
          else 0.
Proof.
  split.
  - intros items. split; [apply basket_pairs_length|].
    split; [apply basket_pairs_NoDup|].
    split; [intros a b; apply basket_pairs_In|].
    intros Hk. unfold basket_pairs.
    destruct (Nat.leb_spec 2 (List.length (unique_items items))); [lia|reflexivity].
  - eexists. split; [reflexivity|].
    intros a b. apply count_pairs_groupby.
Qed.

(** ** C2 *)

(** C2. The filter-and-grouping stage keeps exactly the rows that pass both
    filters, an absent or empty filter letting everything pass; the groups
    are the transactions that still have a row, each once, and the distinct
    items of a group are the items bought in it; with no surviving row the
    grouping is empty and [get_item_pairs] returns the empty table. *)
Theorem filter_and_grouping (df : DataFrame) (dp it : option (list string)) :
  filtered_df df dp it = spec_retained df dp it
  /\ filtered_df df (Some []) it = filtered_df df None it
  /\ filtered_df df dp (Some []) = filtered_df df dp None
  /\ NoDup (map fst (groupby_TransactionNo (filtered_df df dp it)))
  /\ (forall t, In t (map fst (groupby_TransactionNo (filtered_df df dp it))) <->
                exists r, In r (spec_retained df dp it) /\ TransactionNo r = t)
  /\ Forall (fun g =>
               NoDup (unique_items (snd g)) /\ snd g <> [] /\
               forall x, In x (unique_items (snd g)) <->
                         bought (spec_retained df dp it) (fst g) x = true)
            (groupby_TransactionNo (filtered_df df dp it))
  /\ (spec_retained df dp it = [] ->
      groupby_TransactionNo (filtered_df df dp it) = []
      /\ get_item_pairs df dp it = Returns []).
Proof.
  rewrite <- (filtered_df_spec df dp it).
  split; [reflexivity|].
  split; [reflexivity|].
  split; [reflexivity|].
  split; [apply groupby_NoDup|].
  split; [intros t; apply groupby_key_In|].
  split; [apply groupby_basket|].
  intros Hnil. unfold get_item_pairs. rewrite Hnil. split; reflexivity.
Qed.

(** ** C6 *)

(** C6. Every key of the pair table is a pair of two different labels, the
    first below the second, and no count exceeds the number of baskets. *)
Theorem pair_table_keys_and_bound (df : DataFrame) (dp it : option (list string))
    (c : Counter Pair) (a b : string) (v : Z) :
  get_item_pairs df dp it = Returns c ->
  In ((a, b), v) c ->
  String.ltb a b = true /\ a <> b
  /\ v <= Z.of_nat (List.length (groupby_TransactionNo (filtered_df df dp it))).
Proof.
  unfold get_item_pairs. intros E Hin. inversion E; subst c; clear E.
  apply (counter_wf_In _ Pair_eqb_spec) in Hin; [|apply count_pairs_wf].
  destruct Hin as [Hget Hv]. rewrite count_pairs_groupby in Hget.
  destruct (String.ltb a b) eqn:Hab; [|lia].
  split; [reflexivity|]. split; [now apply StrOrder.ltb_neq|].
  rewrite groupby_length. unfold nunique_TransactionNo.
  subst v. apply inj_le. apply filter_length_le.
Qed.

Lemma pair_table_keys_and_bound_witness :
  get_item_pairs [mkRow 1 "A" "Morning"; mkRow 1 "B" "Morning";
                  mkRow 2 "B" "Morning"; mkRow 2 "A" "Evening"] None None
  = Returns [(("A", "B")%string, 2)]
  /\ In (("A", "B")%string, 2) [(("A", "B")%string, 2)]
  /\ (String.ltb "A" "B" = true /\ "A"%string <> "B"%string
      /\ 2 <= Z.of_nat (List.length (groupby_TransactionNo
                  (filtered_df [mkRow 1 "A" "Morning"; mkRow 1 "B" "Morning";
                                mkRow 2 "B" "Morning"; mkRow 2 "A" "Evening"]
                               None None)))).
Proof.
  split; [reflexivity|]. split; [now left|].
  apply (pair_table_keys_and_bound _ None None [(("A", "B")%string, 2)]).
  - reflexivity.
  - now left.
Defined.

(** ** C10 *)

(** C10. Every count in the pair table is at least 1, and a key is in the
    table exactly when its two items, in ascending order, were bought
    together in some filtered transaction. *)
Theorem pair_table_positive (df : DataFrame) (dp it : option (list string)) :
  exists c,
    get_item_pairs df dp it = Returns c
    /\ Forall (fun e => 1 <= snd e) c
    /\ forall a b,
        (exists v, In ((a, b), v) c) <->
        String.ltb a b = true
        /\ exists t, In t (baskets_with (filtered_df df dp it) a b).
Proof.
  eexists. split; [reflexivity|].
  pose proof (count_pairs_wf (groupby_TransactionNo (filtered_df df dp it))) as Hwf.
  split; [apply Hwf|].
  intros a b.
  assert (Hnz : forall l : list Z, (exists t, In t l) <-> 1 <= Z.of_nat (List.length l)).
  { intros [|t l]; simpl List.length; split.
    - intros [t []].
    - lia.
    - lia.
    - intros _. exists t. now left. }
  rewrite Hnz. split.
  - intros [v Hin].
    apply (counter_wf_In _ Pair_eqb_spec) in Hin; [|exact Hwf].
    destruct Hin as [Hget Hv]. rewrite count_pairs_groupby in Hget.
    destruct (String.ltb a b); [|lia]. split; [reflexivity|lia].
  - intros [Hab Hb]. eexists.
    apply (counter_wf_In _ Pair_eqb_spec); [exact Hwf|].
    split; [reflexivity|]. rewrite count_pairs_groupby, Hab. exact Hb.
Qed.

(** ** C5 *)

Lemma nunique_zero (fdf : DataFrame) :
  nunique_TransactionNo fdf = 0%nat -> fdf = [].
Proof. destruct fdf; [reflexivity|discriminate]. Qed.

(** C5. The average basket size is the number of filtered rows divided by
    the number of distinct transaction numbers, and it is 0 when there is no
    transaction; the division never raises. *)
Theorem avg_basket_value (fdf : DataFrame) :
  avg_basket fdf =
  Returns (if Nat.eqb (nunique_TransactionNo fdf) 0
           then 0%Q
           else (inject_Z (Z.of_nat (List.length fdf))
                 / inject_Z (Z.of_nat (nunique_TransactionNo fdf)))%Q).
Proof.
  unfold avg_basket, truediv.
  destruct (Nat.eqb_spec (nunique_TransactionNo fdf) 0) as [E|E].
  - rewrite E. apply nunique_zero in E. subst fdf. reflexivity.
  - replace (Z.max (Z.of_nat (nunique_TransactionNo fdf)) 1)
      with (Z.of_nat (nunique_TransactionNo fdf)) by lia.
    destruct (Z.eqb_spec (Z.of_nat (nunique_TransactionNo fdf)) 0); [lia|].
    reflexivity.
Qed.

(** ** C7 *)

Lemma counter_get_perm {K : Type} (K_eqb : K -> K -> bool)
    (K_eqb_spec : forall x y, reflect (x = y) (K_eqb x y))
    (c c' : Counter K) (k : K) :
  Permutation c c' -> NoDup (map fst c) ->
  counter_get K_eqb c k = counter_get K_eqb c' k.
Proof.
  induction 1 as [|[k0 v0] c c' Hp IH|[k1 v1] [k2 v2] c|c c' c'' Hp1 IH1 Hp2 IH2];
    simpl; intros Hnd.
  - reflexivity.
  - inversion Hnd; subst. now rewrite IH.
  - inversion Hnd as [|? ? Hk Hnd']; subst. simpl in Hk.
    destruct (K_eqb_spec k k1) as [->|H1], (K_eqb_spec k1 k2) as [->|H2];
      try reflexivity; tauto.
  - rewrite IH1 by assumption. apply IH2.
    eapply Permutation_NoDup; [|exact Hnd]. now apply Permutation_map.
Qed.

Lemma value_counts_get (col : list string) (x : string) :
  counter_get String.eqb (value_counts col) x = occurrences String.eqb x col.
Proof.
  unfold value_counts.
  assert (Hwf : counter_wf (counter_update String.eqb [] col)).
  { apply (counter_update_wf _ String.eqb_spec). split; constructor. }
  rewrite <- (counter_get_perm _ String.eqb_spec
                (counter_update String.eqb [] col)).
  - now rewrite (counter_get_update _ String.eqb_spec).
  - symmetry. apply stable_sort_perm.
  - apply Hwf.
Qed.

(** C7. On the five rows of the example, without filters, the item counts
    are A:2, B:2, C:1 (as a mapping: up to the order of the entries), the
    pair table is (A,B):1, (A,C):1, the single item of transaction 3 gives
    no pair, and the average
    basket size is 5/3; one transaction with the rows A, A, B counts A
    twice and B once but the pair (A,B) once; and in general the count of
    an item is the number of rows that carry it. *)
Theorem example_counts :
  (exists s,
      get_item_stats
        [mkRow 1 "A" "Morning"; mkRow 1 "B" "Morning"; mkRow 2 "A" "Morning";
         mkRow 2 "C" "Morning"; mkRow 3 "B" "Evening"]
      = Returns s
      /\ Permutation s [("A"%string, 2); ("B"%string, 2); ("C"%string, 1)])
  /\ get_item_pairs
       [mkRow 1 "A" "Morning"; mkRow 1 "B" "Morning"; mkRow 2 "A" "Morning";
        mkRow 2 "C" "Morning"; mkRow 3 "B" "Evening"] None None
     = Returns [(("A", "B")%string, 1); (("A", "C")%string, 1)]
  /\ basket_pairs ["B"%string] = []
  /\ avg_basket
       (filtered_df
          [mkRow 1 "A" "Morning"; mkRow 1 "B" "Morning"; mkRow 2 "A" "Morning";
           mkRow 2 "C" "Morning"; mkRow 3 "B" "Evening"] None None)
     = Returns (5 # 3)%Q
  /\ get_item_stats
       [mkRow 1 "A" "Morning"; mkRow 1 "A" "Morning"; mkRow 1 "B" "Morning"]
     = Returns [("A"%string, 2); ("B"%string, 1)]
  /\ get_item_pairs
       [mkRow 1 "A" "Morning"; mkRow 1 "A" "Morning"; mkRow 1 "B" "Morning"]
       None None
     = Returns [(("A", "B")%string, 1)]
  /\ forall (df : DataFrame) (x : string),
      exists s,
        get_item_stats df = Returns s
        /\ counter_get String.eqb s x
           = Z.of_nat (List.length (filter (fun r => String.eqb x (Items r)) df)).
Proof.
  split; [eexists; split; [reflexivity|apply Permutation_refl]|].
  repeat (split; [reflexivity|]).
  intros df x. eexists. split; [reflexivity|].
  rewrite value_counts_get. unfold occurrences. f_equal.
  induction df as [|r df IH]; [reflexivity|].
  simpl. destruct (String.eqb x (Items r)); simpl; congruence.
Qed.

(** ** C3 *)

Lemma StronglySorted_impl {A : Type} (R S : A -> A -> Prop) (l : list A) :
  (forall x y, R x y -> S x y) -> StronglySorted R l -> StronglySorted S l.
Proof.
  intros HRS. induction 1 as [|x l Hs IH Hall]; constructor; [assumption|].
  eapply Forall_impl; [|exact Hall]. auto.
Qed.

Lemma count_desc_total {K : Type} (x y : K * Z) :
  count_desc x y = true \/ count_desc y x = true.
Proof. unfold count_desc. lia. Qed.

Lemma count_desc_trans {K : Type} (x y z : K * Z) :
  count_desc x y = true -> count_desc y z = true -> count_desc x z = true.
Proof. unfold count_desc. lia. Qed.

(** The full descending sort: counts never go up, and the entries of one
    count are those of the table in the table's order. *)
Lemma sort_desc_sorted {K : Type} (c : Counter K) :
  StronglySorted (fun x y => snd y <= snd x) (stable_sort count_desc c).
Proof.
  apply StronglySorted_impl with (R := fun x y => count_desc x y = true).
  - unfold count_desc. intros x y H. lia.
  - apply stable_sort_sorted; [apply count_desc_total|apply count_desc_trans].
Qed.

Lemma sort_desc_stable {K : Type} (c : Counter K) (v : Z) :
  filter (fun e => snd e =? v) (stable_sort count_desc c) =
  filter (fun e => snd e =? v) c.
Proof.
  apply stable_sort_filter. unfold count_desc. intros x y Hx Hy. lia.
Qed.

(** The table [get_item_pairs] builds from transaction 1 with B and C and
    transaction 2 with A and B holds (B,C) before (A,B), both with count 1;
    [most_common] keeps that order, against the ascending-key rule. *)
Lemma most_common_ties_counterexample :
  get_item_pairs [mkRow 1 "B" "Morning"; mkRow 1 "C" "Morning";
                  mkRow 2 "A" "Morning"; mkRow 2 "B" "Morning"] None None
  = Returns [(("B", "C")%string, 1); (("A", "B")%string, 1)]
  /\ most_common [(("B", "C")%string, 1); (("A", "B")%string, 1)] 2
     = Returns [(("B", "C")%string, 1); (("A", "B")%string, 1)]
  /\ spec_ties_ascending [(("B", "C")%string, 1); (("A", "B")%string, 1)] = false.
Proof. repeat split. Qed.

(** C3, amended. For n >= 0 the ranking of a counter has min(n, size)
    entries, its counts never increase, and the entries of any one count are
    a prefix of the table's entries of that count in the table's own
    (insertion) order, so the result is reproducible but ties are not
    ordered by key; n = 0 gives the empty sequence and n at least the table
    size gives all the entries.  The head of the item statistics is
    non-increasing in count too, empty for n = 0 and the whole table for n
    at least its size. *)
Theorem most_common_ranking {K : Type} (c : Counter K) (col : list string)
    (n : Z) :
  0 <= n ->
  (exists out,
    most_common c n = Returns out
    /\ List.length out = Nat.min (Z.to_nat n) (List.length c)
    /\ StronglySorted (fun x y => snd y <= snd x) out
    /\ (forall v, exists rest,
           filter (fun e => snd e =? v) c
           = filter (fun e => snd e =? v) out ++ rest)
    /\ (n = 0 -> out = [])
    /\ (Z.of_nat (List.length c) <= n ->
        Permutation out c
        /\ forall v, filter (fun e => snd e =? v) out
                     = filter (fun e => snd e =? v) c))
  /\ StronglySorted (fun x y => snd y <= snd x) (head n (value_counts col))
  /\ (n = 0 -> head n (value_counts col) = [])
  /\ (Z.of_nat (List.length (value_counts col)) <= n ->
      head n (value_counts col) = value_counts col).
Proof.
  intros Hn. unfold most_common, head.
  destruct (Z.ltb_spec n 0) as [Hneg|_]; [lia|].
  split.
  - eexists. split; [reflexivity|].
    split; [now rewrite length_firstn, stable_sort_length|].
    split; [apply StronglySorted_firstn, sort_desc_sorted|].
    split.
    + intros v. exists (filter (fun e => snd e =? v)
                          (skipn (Z.to_nat n) (stable_sort count_desc c))).
      now rewrite <- filter_app, firstn_skipn, sort_desc_stable.
    + split; [now intros ->|].
      intros Hall. rewrite firstn_all2 by (rewrite stable_sort_length; lia).
      split; [apply stable_sort_perm|apply sort_desc_stable].
  - split; [apply StronglySorted_firstn, sort_desc_sorted|].
    split; [now intros ->|].
    intros Hall. apply firstn_all2. lia.
Qed.

Lemma most_common_ranking_witness :
  0 <= 2
  /\ exists out,
      most_common [(("B", "C")%string, 1); (("A", "B")%string, 1)] 2 = Returns out
      /\ List.length out = Nat.min (Z.to_nat 2) 2
      /\ StronglySorted (fun x y => snd y <= snd x) out
      /\ (forall v, exists rest,
             filter (fun e => snd e =? v)
                    [(("B", "C")%string, 1); (("A", "B")%string, 1)]
             = filter (fun e => snd e =? v) out ++ rest)
      /\ (2 = 0 -> out = [])
      /\ (Z.of_nat 2 <= 2 ->
          Permutation out [(("B", "C")%string, 1); (("A", "B")%string, 1)]
          /\ forall v, filter (fun e => snd e =? v) out
                       = filter (fun e => snd e =? v)
                                [(("B", "C")%string, 1); (("A", "B")%string, 1)]).
Proof.
  split; [lia|].
  apply (most_common_ranking
           [(("B", "C")%string, 1); (("A", "B")%string, 1)] [] 2).
  lia.
Defined.

(** ** C8 *)

(** With n = -1 both ranking calls return: [most_common] the empty list,
    [head] all but the last entry. *)
Lemma negative_n_counterexample :
  most_common [(("A", "B")%string, 2); (("A", "C")%string, 1)] (-1) = Returns []
  /\ most_common [(("A", "B")%string, 2); (("A", "C")%string, 1)] (-1)
     <> Raises "ParameterError"
  /\ head (-1) (value_counts ["A"; "A"; "B"]%string) = [("A"%string, 2)].
Proof. repeat split. discriminate. Qed.

(** C8, amended. A negative n raises nothing: [most_common] returns the
    empty sequence, and [head] returns the table without its last -n
    entries. *)
Theorem negative_n_returns {K : Type} (c : Counter K) (l : list (string * Z))
    (n : Z) :
  n < 0 ->
  most_common c n = Returns []
  /\ exists dropped,
      l = head n l ++ dropped
      /\ List.length dropped = Nat.min (Z.to_nat (- n)) (List.length l).
Proof.
  intros Hn. unfold most_common, head.
  destruct (Z.ltb_spec n 0) as [_|H]; [|lia].
  split; [reflexivity|].
  exists (skipn (List.length l - Z.to_nat (- n)) l).
  split; [now rewrite firstn_skipn|].
  rewrite length_skipn. lia.
Qed.

Lemma negative_n_returns_witness :
  -1 < 0
  /\ most_common [(("A", "B")%string, 2); (("A", "C")%string, 1)] (-1) = Returns []
  /\ exists dropped,
      [("A"%string, 2); ("B"%string, 1)]
      = head (-1) [("A"%string, 2); ("B"%string, 1)] ++ dropped
      /\ List.length dropped = Nat.min (Z.to_nat (- -1)) 2.
Proof.
  split; [lia|].
  apply (negative_n_returns
           [(("A", "B")%string, 2); (("A", "C")%string, 1)]
           [("A"%string, 2); ("B"%string, 1)] (-1)).
  lia.
Defined.

(** ** C9 *)

(** Two rows of transaction 1 carry the day part Dawn, which is not one of
    the four declared ones.  Under the default filter they are dropped with
    no error: the pair (Bread, Coffee) they form is counted without the
    filter and is absent with it; the item statistics count them. *)
Lemma undeclared_daypart_counterexample :
  isin "Dawn" daypart_order = false
  /\ get_item_pairs [mkRow 1 "Bread" "Dawn"; mkRow 1 "Coffee" "Dawn";
                     mkRow 2 "Bread" "Morning"] (Some daypart_order) None
     = Returns []
  /\ get_item_pairs [mkRow 1 "Bread" "Dawn"; mkRow 1 "Coffee" "Dawn";
                     mkRow 2 "Bread" "Morning"] None None
     = Returns [(("Bread", "Coffee")%string, 1)]
  /\ get_item_stats [mkRow 1 "Bread" "Dawn"; mkRow 1 "Coffee" "Dawn";
                     mkRow 2 "Bread" "Morning"]
     = Returns [("Bread"%string, 2); ("Coffee"%string, 1)].
Proof. repeat split. Qed.

(** C9, amended. The counting operations validate nothing and raise
    nothing on rows that carry all three fields: a row whose day part is
    not a declared one is filtered like any other row, so it is dropped
    under the filter of the declared day parts and kept, and counted, when
    no filter is given. *)
Theorem counting_never_validates (df : DataFrame) (dp it : option (list string)) :
  (exists c, get_item_pairs df dp it = Returns c)
  /\ (exists s, get_item_stats df = Returns s)
  /\ forall r,
      In r df -> isin (Daypart r) daypart_order = false ->
      (In r (filtered_df df dp it) <->
       spec_passes dp (Daypart r) = true /\ spec_passes it (Items r) = true)
      /\ ~ In r (filtered_df df (Some daypart_order) it)
      /\ In r (filtered_df df None None)
      /\ 1 <= counter_get String.eqb (value_counts (map Items df)) (Items r).
Proof.
  split; [eexists; reflexivity|].
  split; [eexists; reflexivity|].
  intros r Hr Hout.
  split; [|split; [|split]].
  - rewrite filtered_df_spec. unfold spec_retained.
    rewrite filter_In, andb_true_iff. tauto.
  - rewrite filtered_df_spec. unfold spec_retained.
    rewrite filter_In, andb_true_iff. intros (_ & Hp & _).
    change (spec_passes (Some daypart_order) (Daypart r))
      with (isin (Daypart r) daypart_order) in Hp.
    congruence.
  - exact Hr.
  - rewrite value_counts_get. unfold occurrences.
    assert (Hin : In (Items r) (filter (String.eqb (Items r)) (map Items df))).
    { apply filter_In. split; [now apply in_map|apply String.eqb_refl]. }
    destruct (filter (String.eqb (Items r)) (map Items df));
      [contradiction|simpl List.length; lia].
Qed.

(** ** C4 *)

Lemma frame_row_map {V : Type} (f : string -> list V) (idx : list string)
    (label : string) :
  frame_row idx (map f idx) label =
  if isin label idx then Some (f label) else None.
Proof.
  unfold isin. induction idx as [|s idx IH]; [reflexivity|].
  simpl. rewrite (String.eqb_sym label s).
  destruct (String.eqb_spec s label) as [->|Hs]; [reflexivity|exact IH].
Qed.

Lemma group_size_selected (df : DataFrame) (top : list string)
    (daypart item : string) :
  In item top ->
  group_size (filter (fun r => isin (Items r) top) df) daypart item =
  group_size df daypart item.
Proof.
  intros Htop. unfold group_size. rewrite filter_filter_andb.
  f_equal. f_equal. apply filter_ext. intros r.
  destruct (String.eqb_spec (Items r) item) as [E|E].
  - rewrite E. apply isin_In in Htop. rewrite Htop. reflexivity.
  - now rewrite andb_false_r, andb_false_r.
Qed.

Lemma counter_update_keys {K : Type} (K_eqb : K -> K -> bool)
    (K_eqb_spec : forall x y, reflect (x = y) (K_eqb x y)) (ks : list K) :
  forall (c : Counter K) (k : K),
    In k (map fst (counter_update K_eqb c ks)) <-> In k ks \/ In k (map fst c).
Proof.
  unfold counter_update.
  induction ks as [|k0 ks IH]; intros c k; simpl; [tauto|].
  rewrite IH, (counter_incr_keys _ K_eqb_spec). intuition.
Qed.

Lemma value_counts_keys_perm (col : list string) :
  Permutation (map fst (value_counts col))
              (map fst (counter_update String.eqb [] col)).
Proof. apply Permutation_map, stable_sort_perm. Qed.

Lemma value_counts_keys_In (col : list string) (x : string) :
  In x (map fst (value_counts col)) <-> In x col.
Proof.
  transitivity (In x (map fst (counter_update String.eqb [] col))).
  - split; apply Permutation_in;
      [|symmetry]; apply value_counts_keys_perm.
  - rewrite (counter_update_keys _ String.eqb_spec). simpl. tauto.
Qed.

Lemma value_counts_keys_NoDup (col : list string) :
  NoDup (map fst (value_counts col)).
Proof.
  eapply Permutation_NoDup.
  - symmetry. apply value_counts_keys_perm.
  - apply (counter_update_wf _ String.eqb_spec). split; constructor.
Qed.

Lemma NoDup_firstn {A : Type} (n : nat) (l : list A) :
  NoDup l -> NoDup (firstn n l).
Proof.
  intros Hnd. rewrite <- (firstn_skipn n l) in Hnd.
  now apply NoDup_app_remove_r in Hnd.
Qed.

Lemma top_items_list_firstn (df : DataFrame) :
  top_items_list df = firstn 15 (map fst (value_counts (map Items df))).
Proof.
  unfold top_items_list, head. change (15 <? 0) with false. cbv iota.
  symmetry. apply firstn_map.
Qed.

Lemma top_items_list_NoDup (df : DataFrame) : NoDup (top_items_list df).
Proof.
  rewrite top_items_list_firstn.
  apply NoDup_firstn, value_counts_keys_NoDup.
Qed.

Lemma top_items_list_In (df : DataFrame) (x : string) :
  In x (top_items_list df) -> exists r, In r df /\ Items r = x.
Proof.
  rewrite top_items_list_firstn. intros H.
  assert (Hin : In x (map fst (value_counts (map Items df)))).
  { rewrite <- (firstn_skipn 15 (map fst _)).
    apply in_or_app. now left. }
  apply (proj1 (value_counts_keys_In _ _)) in Hin.
  apply in_map_iff in Hin as (r & E & Hr).
  now exists r.
Qed.

Lemma heatmap_columns_In (df : DataFrame) (top order : list string) (i : string) :
  In i (columns (heatmap_data df top order)) <->
  In i top /\ exists r, In r df /\ Items r = i.
Proof.
  unfold heatmap_data, reindex, size_unstack, sorted_str. simpl.
  rewrite stable_sort_In, (unique_In _ String.eqb_spec), in_map_iff. split.
  - intros (r & E & Hr). apply filter_In in Hr as [Hr Htop].
    apply isin_In in Htop. subst i. eauto.
  - intros (Htop & r & Hr & E). exists r. split; [assumption|].
    apply filter_In. split; [assumption|]. apply isin_In. now rewrite E.
Qed.

Lemma heatmap_columns_sorted (df : DataFrame) (top order : list string) :
  StronglySorted (fun a b => String.ltb a b = true)
                 (columns (heatmap_data df top order)).
Proof.
  unfold heatmap_data, reindex, size_unstack. simpl.
  apply sorted_str_strict, unique_NoDup, String.eqb_spec.
Qed.

(** Three morning rows: Coffee is bought twice and Bread once, so Coffee
    leads the top items, but the columns come out as Bread, Coffee; the
    rows of the three day parts without data hold NaN. *)
Lemma heatmap_columns_counterexample :
  top_items_list [mkRow 1 "Coffee" "Morning"; mkRow 1 "Bread" "Morning";
                  mkRow 2 "Coffee" "Morning"]
  = ["Coffee"; "Bread"]%string
  /\ columns (heatmap_data
                [mkRow 1 "Coffee" "Morning"; mkRow 1 "Bread" "Morning";
                 mkRow 2 "Coffee" "Morning"]
                ["Coffee"; "Bread"]%string daypart_order)
     = ["Bread"; "Coffee"]%string
  /\ values (heatmap_data
               [mkRow 1 "Coffee" "Morning"; mkRow 1 "Bread" "Morning";
                mkRow 2 "Coffee" "Morning"]
               ["Coffee"; "Bread"]%string daypart_order)
     = [[Some 1; Some 2]; [None; None]; [None; None]; [None; None]].
Proof. repeat split. Qed.

(** C4, amended. When some row carries a top item, the matrix has one row
    per segment, in the supplied segment order and as wide as the columns;
    its columns are the top items that occur in the data, in ascending
    label order rather than in the supplied order (for the top items the
    page computes, a rearrangement of all of them); and in the row of a
    segment that has a row with a top item, each cell holds the number of
    rows with that segment and that item. *)
Theorem heatmap_shape (df : DataFrame) (top order : list string) :
  (exists r, In r df /\ isin (Items r) top = true) ->
  index (heatmap_data df top order) = order
  /\ StronglySorted (fun a b => String.ltb a b = true)
                    (columns (heatmap_data df top order))
  /\ (forall i, In i (columns (heatmap_data df top order)) <->
                In i top /\ exists r, In r df /\ Items r = i)
  /\ (top = top_items_list df ->
      Permutation (columns (heatmap_data df top order)) top)
  /\ Forall2 (fun s row =>
                List.length row = List.length (columns (heatmap_data df top order))
                /\ ((exists r, In r df /\ isin (Items r) top = true
                               /\ Daypart r = s) ->
                    row = map (fun i => Some (group_size df s i))
                              (columns (heatmap_data df top order))))
             order (values (heatmap_data df top order)).
Proof.
  intros _.
  split; [reflexivity|].
  split; [apply heatmap_columns_sorted|].
  split; [apply heatmap_columns_In|].
  split.
  - intros ->. apply NoDup_Permutation.
    + unfold heatmap_data, reindex, size_unstack, sorted_str. simpl.
      apply stable_sort_NoDup, unique_NoDup, String.eqb_spec.
    + apply top_items_list_NoDup.
    + intros i. rewrite heatmap_columns_In. split; [tauto|].
      intros H. split; [assumption|]. now apply top_items_list_In.
  - pose proof (heatmap_columns_In df top order) as Hcols.
    unfold heatmap_data, reindex, size_unstack in *. cbn [columns index values] in *.
    set (sel := filter (fun r => isin (Items r) top) df) in *.
    set (cols := sorted_str (unique String.eqb (map Items sel))) in *.
    induction order as [|s order IH]; cbn [map]; constructor; [|exact IH].
    rewrite frame_row_map.
    destruct (isin s (sorted_str (unique String.eqb (map Daypart sel)))) eqn:Hs.
    + split; [now rewrite !length_map|]. intros _.
      rewrite map_map. apply map_ext_in. intros i Hi. f_equal.
      apply group_size_selected. now apply Hcols.
    + split; [now rewrite length_map|]. intros (r & Hr & Htop & E).
      exfalso. apply Bool.not_true_iff_false in Hs. apply Hs.
      apply isin_In. unfold sorted_str.
      rewrite stable_sort_In, (unique_In _ String.eqb_spec), in_map_iff.
      exists r. split; [assumption|]. apply filter_In. auto.
Qed.

Lemma heatmap_shape_witness :
  (exists r,
      In r [mkRow 1 "Coffee" "Morning"; mkRow 1 "Bread" "Morning";
            mkRow 2 "Coffee" "Morning"]
      /\ isin (Items r) ["Coffee"; "Bread"]%string = true)
  /\ index (heatmap_data
              [mkRow 1 "Coffee" "Morning"; mkRow 1 "Bread" "Morning";
               mkRow 2 "Coffee" "Morning"]
              ["Coffee"; "Bread"]%string daypart_order)
     = daypart_order
  /\ StronglySorted (fun a b => String.ltb a b = true)
       (columns (heatmap_data
                   [mkRow 1 "Coffee" "Morning"; mkRow 1 "Bread" "Morning";
                    mkRow 2 "Coffee" "Morning"]
                   ["Coffee"; "Bread"]%string daypart_order)).
Proof.
  assert (H : exists r,
             In r [mkRow 1 "Coffee" "Morning"; mkRow 1 "Bread" "Morning";
                   mkRow 2 "Coffee" "Morning"]
             /\ isin (Items r) ["Coffee"; "Bread"]%string = true).
  { exists (mkRow 1 "Coffee" "Morning"). split; [now left|reflexivity]. }
  split; [exact H|].
  destruct (heatmap_shape _ _ daypart_order H) as (H1 & H2 & _).
  split; assumption.
Defined.

(** * Further properties of the page *)

(** ** Filters *)

Lemma filtered_df_In (df : DataFrame) (dp it : option (list string)) (r : Row) :
  In r (filtered_df df dp it) <->
  In r df /\ spec_passes dp (Daypart r) = true /\ spec_passes it (Items r) = true.
Proof.
  rewrite filtered_df_spec. unfold spec_retained.
  now rewrite filter_In, andb_true_iff.
Qed.

(** The two filters can be applied one after the other in either order, and
    applying them a second time changes nothing; filtering only removes
    rows. *)
Theorem filters_compose (df : DataFrame) (dp it : option (list string)) :
  filtered_df (filtered_df df dp None) None it = filtered_df df dp it
  /\ filtered_df (filtered_df df None it) dp None = filtered_df df dp it
  /\ filtered_df (filtered_df df dp it) dp it = filtered_df df dp it
  /\ (List.length (filtered_df df dp it) <= List.length df)%nat.
Proof.
  rewrite !filtered_df_spec. unfold spec_retained.
  rewrite !filter_filter_andb. simpl.
  repeat split.
  - apply filter_ext. intros r. now rewrite andb_true_r.
  - apply filter_ext. intros r. rewrite andb_true_r. apply andb_comm.
  - apply filter_ext. intros r.
    destruct (spec_passes dp (Daypart r)), (spec_passes it (Items r)); reflexivity.
  - apply filter_length_le.
Qed.

Lemma page_filtered_df_eq (df : DataFrame) (dp it : list string) :
  filtered_df df (Some dp) (or_None it) = page_filtered_df df dp it.
Proof.
  unfold filtered_df, page_filtered_df, or_None, truthy, active.
  destruct it as [|i it]; reflexivity.
Qed.

(** ** Metrics *)

Lemma unique_length_le {A : Type} (eqb : A -> A -> bool) (l : list A) :
  (List.length (unique eqb l) <= List.length l)%nat.
Proof.
  induction l as [|x l IH]; simpl; [lia|].
  pose proof (filter_length_le (fun y => negb (eqb x y)) (unique eqb l)). lia.
Qed.

Lemma Q_ratio_ge_1 (a b : Z) :
  0 < b -> b <= a -> (1 <= inject_Z a / inject_Z b)%Q.
Proof.
  intros Hb Hab. apply Qle_shift_div_l.
  - change 0%Q with (inject_Z 0). now rewrite <- Zlt_Qlt.
  - rewrite Qmult_1_l. now rewrite <- Zle_Qle.
Qed.

Lemma nunique_pos (fdf : DataFrame) :
  fdf <> [] -> (1 <= nunique_TransactionNo fdf)%nat.
Proof.
  destruct fdf as [|r fdf]; [congruence|].
  intros _. unfold nunique_TransactionNo. simpl. lia.
Qed.

(** The pair table of the pairs tab is counted on exactly the rows the
    metrics are computed on, and no pair count exceeds the "Total
    Transactions" metric. *)
Theorem pairs_tab_matches_metrics (df : DataFrame) (dp it : list string) :
  exists c,
    get_item_pairs df (Some dp) (or_None it) = Returns c
    /\ c = count_pairs (groupby_TransactionNo (page_filtered_df df dp it))
    /\ Forall (fun e =>
                 snd e <= Z.of_nat (nunique_TransactionNo (page_filtered_df df dp it)))
              c.
Proof.
  unfold get_item_pairs. rewrite page_filtered_df_eq.
  set (fdf := page_filtered_df df dp it).
  eexists. split; [reflexivity|]. split; [reflexivity|].
  rewrite Forall_forall. intros [[a b] v] Hin. simpl.
  apply (counter_wf_In _ Pair_eqb_spec) in Hin; [|apply count_pairs_wf].
  destruct Hin as [Hget _]. rewrite count_pairs_groupby in Hget. subst v.
  destruct (String.ltb a b); [|lia].
  unfold nunique_TransactionNo. apply inj_le, filter_length_le.
Qed.

(** With at least one row, there are at most as many transactions and as
    many distinct items as rows, and the average basket size is at least
    1. *)
Theorem metrics_bounds (fdf : DataFrame) :
  fdf <> [] ->
  (1 <= nunique_TransactionNo fdf <= List.length fdf)%nat
  /\ (1 <= nunique_Items fdf <= List.length fdf)%nat
  /\ exists q, avg_basket fdf = Returns q /\ (1 <= q)%Q.
Proof.
  intros Hne.
  pose proof (nunique_pos fdf Hne) as Hpos.
  assert (Hle : (nunique_TransactionNo fdf <= List.length fdf)%nat).
  { unfold nunique_TransactionNo.
    rewrite <- (length_map TransactionNo fdf). apply unique_length_le. }
  split; [lia|]. split.
  - unfold nunique_Items. split.
    + destruct fdf; [congruence|simpl; lia].
    + rewrite <- (length_map Items fdf). apply unique_length_le.
  - unfold avg_basket, truediv.
    replace (Z.max (Z.of_nat (nunique_TransactionNo fdf)) 1)
      with (Z.of_nat (nunique_TransactionNo fdf)) by lia.
    destruct (Z.eqb_spec (Z.of_nat (nunique_TransactionNo fdf)) 0); [lia|].
    eexists. split; [reflexivity|]. apply Q_ratio_ge_1; lia.
Qed.

Lemma metrics_bounds_witness :
  [mkRow 1 "A" "Morning"; mkRow 1 "B" "Morning"; mkRow 2 "A" "Evening"] <> []
  /\ exists q,
      avg_basket [mkRow 1 "A" "Morning"; mkRow 1 "B" "Morning";
                  mkRow 2 "A" "Evening"] = Returns q
      /\ (1 <= q)%Q.
Proof.
  assert (H : [mkRow 1 "A" "Morning"; mkRow 1 "B" "Morning";
               mkRow 2 "A" "Evening"] <> []) by discriminate.
  split; [exact H|].
  exact (proj2 (proj2 (metrics_bounds _ H))).
Defined.

(** ** Item statistics *)

Lemma counter_total_incr {K : Type} (K_eqb : K -> K -> bool)
    (c : Counter K) (k : K) :
  counter_total (counter_incr K_eqb c k) = counter_total c + 1.
Proof.
  unfold counter_total. induction c as [|[k0 v] c IH]; simpl; [reflexivity|].
  destruct (K_eqb k k0); simpl; lia.
Qed.

Lemma counter_total_update {K : Type} (K_eqb : K -> K -> bool) (ks : list K) :
  forall c : Counter K,
    counter_total (counter_update K_eqb c ks)
    = counter_total c + Z.of_nat (List.length ks).
Proof.
  unfold counter_update.
  induction ks as [|k ks IH]; intros c; simpl fold_left; simpl List.length.
  - lia.
  - rewrite IH, counter_total_incr. lia.
Qed.

Lemma counter_total_perm {K : Type} (c c' : Counter K) :
  Permutation c c' -> counter_total c = counter_total c'.
Proof.
  unfold counter_total.
  induction 1 as [|x l l' _ IH|x y l|l l' l'' _ IH1 _ IH2]; simpl; lia.
Qed.

Lemma value_counts_wf (col : list string) : counter_wf (value_counts col).
Proof.
  split; [apply value_counts_keys_NoDup|].
  eapply Permutation_Forall.
  - symmetry. apply stable_sort_perm.
  - apply (counter_update_wf _ String.eqb_spec). split; constructor.
Qed.

(** The item statistics list every item of the frame once, with a count of
    at least 1; the counts add up to the number of rows, and there are as
    many entries as the "Unique Items" metric says. *)
Theorem item_stats_invariants (df : DataFrame) :
  exists s,
    get_item_stats df = Returns s
    /\ NoDup (map fst s)
    /\ (forall x, In x (map fst s) <-> exists r, In r df /\ Items r = x)
    /\ Forall (fun e => 1 <= snd e) s
    /\ counter_total s = Z.of_nat (List.length df)
    /\ List.length s = nunique_Items df.
Proof.
  eexists. split; [reflexivity|].
  pose proof (value_counts_wf (map Items df)) as [Hnd Hpos].
  split; [exact Hnd|]. split; [|split; [exact Hpos|split]].
  - intros x. rewrite value_counts_keys_In, in_map_iff.
    split; intros (r & H1 & H2); exists r; auto.
  - unfold value_counts.
    rewrite (counter_total_perm _ _ (stable_sort_perm _ _)).
    rewrite counter_total_update, length_map. reflexivity.
  - unfold nunique_Items. rewrite <- (length_map fst).
    apply Permutation_length, NoDup_Permutation.
    + exact Hnd.
    + apply unique_NoDup, String.eqb_spec.
    + intros x. now rewrite value_counts_keys_In, (unique_In _ String.eqb_spec).
Qed.

(** ** More on the pair table *)

Lemma baskets_with_In (fdf : DataFrame) (a b : string) (t : Z) :
  In t (baskets_with fdf a b) <->
  bought fdf t a = true /\ bought fdf t b = true.
Proof.
  unfold baskets_with.
  rewrite filter_In, andb_true_iff, (unique_In _ Z_eqb_spec), in_map_iff.
  split; [tauto|]. intros [Ha Hb]. split; [|tauto].
  apply bought_iff in Ha as (r & Hr & Ht & _). now exists r.
Qed.

Lemma baskets_with_NoDup (fdf : DataFrame) (a b : string) :
  NoDup (baskets_with fdf a b).
Proof. apply NoDup_filter, unique_NoDup, Z_eqb_spec. Qed.

Lemma bought_incl (fdf df : DataFrame) (t : Z) (x : string) :
  (forall r, In r fdf -> In r df) ->
  bought fdf t x = true -> bought df t x = true.
Proof.
  intros Hsub. rewrite !bought_iff. intros (r & Hr & H). exists r. auto.
Qed.

Lemma baskets_with_incl (fdf df : DataFrame) (a b : string) :
  (forall r, In r fdf -> In r df) ->
  (List.length (baskets_with fdf a b) <= List.length (baskets_with df a b))%nat.
Proof.
  intros Hsub. apply NoDup_incl_length; [apply baskets_with_NoDup|].
  intros t. rewrite !baskets_with_In. intros [Ha Hb].
  split; eapply bought_incl; eauto.
Qed.

(** An entry of the table comes from two rows of one transaction. *)
Lemma count_pairs_entry (fdf : DataFrame) (a b : string) (v : Z) :
  In ((a, b), v) (count_pairs (groupby_TransactionNo fdf)) ->
  String.ltb a b = true
  /\ exists ra rb,
      In ra fdf /\ In rb fdf /\ TransactionNo ra = TransactionNo rb
      /\ Items ra = a /\ Items rb = b.
Proof.
  intros Hin.
  apply (counter_wf_In _ Pair_eqb_spec) in Hin; [|apply count_pairs_wf].
  destruct Hin as [Hget Hv]. rewrite count_pairs_groupby in Hget.
  destruct (String.ltb a b); [|lia]. split; [reflexivity|].
  destruct (baskets_with fdf a b) as [|t l] eqn:E; [simpl in Hget; lia|].
  assert (Ht : In t (baskets_with fdf a b)) by (rewrite E; now left).
  apply baskets_with_In in Ht as [Ha Hb].
  apply bought_iff in Ha as (ra & Hra & Hta & Hia).
  apply bought_iff in Hb as (rb & Hrb & Htb & Hib).
  exists ra, rb. repeat split; congruence.
Qed.

Lemma fold_pairs_total (bs : list (list string)) :
  forall c,
    counter_total
      (fold_left (fun pc items =>
         counter_update Pair_eqb pc (basket_pairs items)) bs c)
    = counter_total c
      + Zsum (map (fun items => Z.of_nat (List.length (basket_pairs items))) bs).
Proof.
  unfold Zsum. induction bs as [|items bs IH]; intros c; simpl; [lia|].
  rewrite IH, counter_total_update. lia.
Qed.

Lemma basket_pairs_choose (items : list string) :
  List.length (basket_pairs items)
  = (List.length (unique_items items) * (List.length (unique_items items) - 1) / 2)%nat.
Proof.
  rewrite <- basket_pairs_length, Nat.mul_comm. symmetry. now apply Nat.div_mul.
Qed.

(** The counts of the pair table add up to the number of pairs in the
    baskets: C(k,2) for each transaction with k distinct items. *)
Theorem pair_table_total (df : DataFrame) (dp it : option (list string)) :
  exists c,
    get_item_pairs df dp it = Returns c
    /\ counter_total c
       = Zsum (map (fun g =>
                      Z.of_nat (List.length (unique_items (snd g))
                                * (List.length (unique_items (snd g)) - 1) / 2))
                   (groupby_TransactionNo (filtered_df df dp it))).
Proof.
  eexists. split; [reflexivity|].
  unfold count_pairs. rewrite fold_pairs_total, map_map. simpl.
  f_equal. apply map_ext. intros g. now rewrite basket_pairs_choose.
Qed.

(** A filter never raises a pair count: what the table reads for a pair
    under any filters is at most what it reads without filters. *)
Theorem filtering_never_adds_pairs (df : DataFrame)
    (dp it : option (list string)) (a b : string) :
  exists c c0,
    get_item_pairs df dp it = Returns c
    /\ get_item_pairs df None None = Returns c0
    /\ counter_get Pair_eqb c (a, b) <= counter_get Pair_eqb c0 (a, b).
Proof.
  do 2 eexists. split; [reflexivity|]. split; [reflexivity|].
  rewrite !count_pairs_groupby.
  destruct (String.ltb a b); [|lia].
  apply inj_le, baskets_with_incl.
  intros r Hr. apply filtered_df_In in Hr. tauto.
Qed.

(** With a non-empty item filter, both items of every counted pair are in
    the filter. *)
Theorem pair_keys_within_item_filter (df : DataFrame) (dp : option (list string))
    (items : list string) (c : Counter Pair) (a b : string) (v : Z) :
  items <> [] ->
  get_item_pairs df dp (Some items) = Returns c ->
  In ((a, b), v) c ->
  In a items /\ In b items.
Proof.
  intros Hne E Hin. unfold get_item_pairs in E. inversion E; subst c; clear E.
  apply count_pairs_entry in Hin as (_ & ra & rb & Hra & Hrb & _ & Ha & Hb).
  apply filtered_df_In in Hra as (_ & _ & Hpa).
  apply filtered_df_In in Hrb as (_ & _ & Hpb).
  destruct items as [|i items]; [congruence|].
  change (isin (Items ra) (i :: items) = true) in Hpa.
  change (isin (Items rb) (i :: items) = true) in Hpb.
  apply isin_In in Hpa, Hpb. now subst.
Qed.

Lemma pair_keys_within_item_filter_witness :
  ["A"; "B"]%string <> []
  /\ get_item_pairs [mkRow 1 "A" "Morning"; mkRow 1 "B" "Morning";
                     mkRow 1 "C" "Morning"] None (Some ["A"; "B"]%string)
     = Returns [(("A", "B")%string, 1)]
  /\ In (("A", "B")%string, 1) [(("A", "B")%string, 1)]
  /\ In "A"%string ["A"; "B"]%string /\ In "B"%string ["A"; "B"]%string.
Proof.
  split; [discriminate|]. split; [reflexivity|]. split; [now left|].
  apply (pair_keys_within_item_filter
           [mkRow 1 "A" "Morning"; mkRow 1 "B" "Morning"; mkRow 1 "C" "Morning"]
           None ["A"; "B"]%string [(("A", "B")%string, 1)] "A" "B" 1).
  - discriminate.
  - reflexivity.
  - now left.
Defined.

(** Selecting a single item leaves no pair at all. *)
Theorem single_item_filter_no_pairs (df : DataFrame)
    (dp : option (list string)) (x : string) :
  get_item_pairs df dp (Some [x]) = Returns [].
Proof.
  unfold get_item_pairs. f_equal.
  destruct (count_pairs _) as [|[[a b] v] c] eqn:E; [reflexivity|].
  exfalso.
  assert (Hin : In ((a, b), v)
                   (count_pairs (groupby_TransactionNo
                                   (filtered_df df dp (Some [x])))))
    by (rewrite E; now left).
  apply count_pairs_entry in Hin as (Hlt & ra & rb & Hra & Hrb & _ & Ha & Hb).
  apply filtered_df_In in Hra as (_ & _ & Hpa).
  apply filtered_df_In in Hrb as (_ & _ & Hpb).
  change (isin (Items ra) [x] = true) in Hpa.
  change (isin (Items rb) [x] = true) in Hpb.
  apply isin_In in Hpa as [Hpa|[]], Hpb as [Hpb|[]].
  subst a b. rewrite <- Hpa, <- Hpb, StrOrder.ltb_irrefl in Hlt. discriminate.
Qed.

(** The pair counts depend on the set of rows only: repeating rows or
    changing their order changes no count. *)
Theorem pair_counts_depend_on_row_set (df df' : DataFrame)
    (dp it : option (list string)) (a b : string) :
  (forall r, In r df <-> In r df') ->
  exists c c',
    get_item_pairs df dp it = Returns c
    /\ get_item_pairs df' dp it = Returns c'
    /\ counter_get Pair_eqb c (a, b) = counter_get Pair_eqb c' (a, b).
Proof.
  intros Hset. do 2 eexists. split; [reflexivity|]. split; [reflexivity|].
  rewrite !count_pairs_groupby.
  destruct (String.ltb a b); [|reflexivity]. f_equal.
  apply Nat.le_antisymm; apply baskets_with_incl; intros r;
    rewrite !filtered_df_In, Hset; tauto.
Qed.

Lemma pair_counts_depend_on_row_set_witness :
  (forall r,
      In r [mkRow 1 "A" "Morning"; mkRow 1 "A" "Morning"; mkRow 1 "B" "Morning"]
      <-> In r [mkRow 1 "B" "Morning"; mkRow 1 "A" "Morning"])
  /\ exists c c',
      get_item_pairs [mkRow 1 "A" "Morning"; mkRow 1 "A" "Morning";
                      mkRow 1 "B" "Morning"] None None = Returns c
      /\ get_item_pairs [mkRow 1 "B" "Morning"; mkRow 1 "A" "Morning"] None None
         = Returns c'
      /\ counter_get Pair_eqb c ("A", "B")%string
         = counter_get Pair_eqb c' ("A", "B")%string.
Proof.
  assert (H : forall r,
             In r [mkRow 1 "A" "Morning"; mkRow 1 "A" "Morning";
                   mkRow 1 "B" "Morning"]
             <-> In r [mkRow 1 "B" "Morning"; mkRow 1 "A" "Morning"])
    by (intros r; simpl; tauto).
  split; [exact H|].
  exact (pair_counts_depend_on_row_set _ _ None None "A" "B" H).
Defined.

(** ** More on rankings *)

Lemma StronglySorted_app_pairs {A : Type} (R : A -> A -> Prop) (l1 l2 : list A) :
  StronglySorted R (l1 ++ l2) ->
  forall x y, In x l1 -> In y l2 -> R x y.
Proof.
  induction l1 as [|a l1 IH]; simpl; intros Hs x y Hx Hy; [contradiction|].
  inversion Hs as [|? ? Hs' Hall]; subst.
  destruct Hx as [<-|Hx].
  - rewrite Forall_forall in Hall. apply Hall, in_or_app. now right.
  - now apply IH.
Qed.

(** The ranking keeps the largest counts: no entry that is left out has a
    larger count than an entry that is kept, and nothing is lost or
    invented; and a shorter ranking is the start of a longer one. *)
Theorem most_common_keeps_largest {K : Type} (c : Counter K) (n m : Z) :
  0 <= n -> n <= m ->
  exists out rest longer,
    most_common c n = Returns out
    /\ Permutation (out ++ rest) c
    /\ (forall x y, In x out -> In y rest -> snd y <= snd x)
    /\ most_common c m = Returns longer
    /\ out = firstn (Z.to_nat n) longer.
Proof.
  intros Hn Hm. unfold most_common.
  destruct (Z.ltb_spec n 0); [lia|]. destruct (Z.ltb_spec m 0); [lia|].
  exists (firstn (Z.to_nat n) (stable_sort count_desc c)),
         (skipn (Z.to_nat n) (stable_sort count_desc c)),
         (firstn (Z.to_nat m) (stable_sort count_desc c)).
  split; [reflexivity|].
  split; [rewrite firstn_skipn; apply stable_sort_perm|].
  split.
  - apply (StronglySorted_app_pairs (fun x y => snd y <= snd x)).
    rewrite firstn_skipn. apply sort_desc_sorted.
  - split; [reflexivity|].
    rewrite firstn_firstn. f_equal. lia.
Qed.

Lemma most_common_keeps_largest_witness :
  0 <= 1 /\ 1 <= 2
  /\ exists out rest longer,
      most_common [(("A", "B")%string, 1); (("A", "C")%string, 3)] 1 = Returns out
      /\ Permutation (out ++ rest) [(("A", "B")%string, 1); (("A", "C")%string, 3)]
      /\ (forall x y, In x out -> In y rest -> snd y <= snd x)
      /\ most_common [(("A", "B")%string, 1); (("A", "C")%string, 3)] 2
         = Returns longer
      /\ out = firstn (Z.to_nat 1) longer.
Proof.
  split; [lia|]. split; [lia|].
  apply (most_common_keeps_largest
           [(("A", "B")%string, 1); (("A", "C")%string, 3)] 1 2); lia.
Defined.

(** ** The pairs tab *)

Lemma ltb_total_neq (a b : string) :
  a <> b -> String.ltb a b = true \/ String.ltb b a = true.
Proof.
  intros Hne. unfold String.ltb. rewrite (String.compare_antisym b a).
  destruct (String.compare a b) eqn:E; simpl; auto.
  apply String.compare_eq_iff in E. contradiction.
Qed.

(** The table is empty exactly when no transaction has two different
    items. *)
Lemma count_pairs_empty_iff (fdf : DataFrame) :
  count_pairs (groupby_TransactionNo fdf) = [] <->
  forall t a b, bought fdf t a = true -> bought fdf t b = true -> a = b.
Proof.
  split.
  - intros E t a b Ha Hb.
    destruct (String.eqb_spec a b) as [|Hne]; [assumption|exfalso].
    assert (Hzero : forall x y,
               String.ltb x y = true -> In t (baskets_with fdf x y) -> False).
    { intros x y Hlt Hin.
      pose proof (count_pairs_groupby fdf x y) as Hget.
      rewrite E, Hlt in Hget. simpl in Hget.
      destruct (baskets_with fdf x y); [contradiction|simpl in Hget; lia]. }
    destruct (ltb_total_neq a b Hne) as [Hlt|Hlt].
    + apply (Hzero a b Hlt). now apply baskets_with_In.
    + apply (Hzero b a Hlt). now apply baskets_with_In.
  - intros Hsame.
    destruct (count_pairs _) as [|[[a b] v] c] eqn:E; [reflexivity|exfalso].
    assert (Hin : In ((a, b), v) (count_pairs (groupby_TransactionNo fdf)))
      by (rewrite E; now left).
    apply count_pairs_entry in Hin as (Hlt & ra & rb & Hra & Hrb & Ht & Ha & Hb).
    apply (StrOrder.ltb_neq _ _ Hlt).
    apply (Hsame (TransactionNo ra)); apply bought_iff.
    + now exists ra.
    + exists rb. auto.
Qed.

Lemma StronglySorted_map {A B : Type} (R : B -> B -> Prop) (f : A -> B)
    (l : list A) :
  StronglySorted (fun x y => R (f x) (f y)) l -> StronglySorted R (map f l).
Proof.
  induction 1 as [|x l Hs IH Hall]; simpl; constructor; [assumption|].
  now apply Forall_map.
Qed.

Lemma firstn_nonempty {A : Type} (n : nat) (l : list A) :
  (1 <= n)%nat -> l <> [] -> firstn n l <> [].
Proof. destruct n, l; simpl; intros; try lia; congruence. Qed.

Lemma stable_sort_nonempty {A : Type} (leb : A -> A -> bool) (l : list A) :
  l <> [] -> stable_sort leb l <> [].
Proof.
  intros Hne E. apply Hne, length_zero_iff_nil.
  now rewrite <- (stable_sort_length leb), E.
Qed.

Lemma ranked_pairs_In {K : Type} (c : Counter K) (n : nat) (e : K * Z) :
  In e (firstn n (stable_sort count_desc c)) -> In e c.
Proof.
  intros H. apply (stable_sort_In count_desc).
  rewrite <- (firstn_skipn n (stable_sort count_desc c)).
  apply in_or_app. now left.
Qed.

(** For every position of the slider, the pairs tab raises nothing.  It
    shows the note instead of a table exactly when no filtered transaction
    has two different items.  Otherwise the table is not empty, has at most
    [top_n] rows in order of non-increasing count, and each row has its
    first item below its second, a count of at least 1 and the label
    "item 1 + item 2". *)
Theorem tab2_under_slider (df : DataFrame) (dp it : list string) (top_n : Z) :
  5 <= top_n <= 30 ->
  exists res,
    tab2_pairs_df df dp it top_n = Returns res
    /\ (res = None <->
        forall t a b,
          bought (page_filtered_df df dp it) t a = true ->
          bought (page_filtered_df df dp it) t b = true -> a = b)
    /\ forall rows,
        res = Some rows ->
        rows <> []
        /\ Z.of_nat (List.length rows) <= top_n
        /\ StronglySorted (fun r r' => Count r' <= Count r) rows
        /\ Forall (fun r =>
                     String.ltb (Item_1 r) (Item_2 r) = true
                     /\ 1 <= Count r
                     /\ Pair_label r = (Item_1 r ++ " + " ++ Item_2 r)%string)
                  rows.
Proof.
  intros Hn. unfold tab2_pairs_df, get_item_pairs, most_common, bind.
  rewrite page_filtered_df_eq.
  set (fdf := page_filtered_df df dp it).
  pose proof (count_pairs_empty_iff fdf) as Hempty.
  pose proof (count_pairs_wf (groupby_TransactionNo fdf)) as Hwf.
  set (c := count_pairs (groupby_TransactionNo fdf)) in *.
  destruct (Z.ltb_spec top_n 0); [lia|].
  destruct c as [|e0 c0] eqn:Ec.
  - simpl. exists None. split; [reflexivity|]. split.
    + split; [intros _; now apply Hempty|reflexivity].
    + intros rows Hrows. discriminate.
  - change (truthy (e0 :: c0)) with true. cbv iota.
    remember (firstn (Z.to_nat top_n) (stable_sort count_desc (e0 :: c0)))
      as top eqn:Etop.
    assert (Htop : top <> []).
    { subst top. apply firstn_nonempty; [lia|].
      apply stable_sort_nonempty. discriminate. }
    destruct top as [|e top']; [congruence|].
    eexists. split; [reflexivity|]. split.
    + split; [discriminate|]. intros Hsame. apply Hempty in Hsame. discriminate.
    + intros rows Hrows.
      assert (Hr : rows = map (fun e1 : Pair * Z =>
                     mkPairsRow (fst (fst e1)) (snd (fst e1)) (snd e1)
                                (pair_label (fst e1))) (e :: top'))
        by (inversion Hrows; reflexivity).
      rewrite Hr. clear Hr Hrows.
      split; [discriminate|]. rewrite Etop.
      split; [|split].
      * rewrite length_map, length_firstn. lia.
      * apply StronglySorted_map, StronglySorted_firstn.
        exact (sort_desc_sorted (e0 :: c0)).
      * rewrite Forall_map, Forall_forall. intros [[a b] v] Hin.
        cbn [Item_1 Item_2 Count Pair_label fst snd].
        apply ranked_pairs_In in Hin.
        assert (Hv : 1 <= v).
        { destruct Hwf as [_ Hpos]. rewrite Forall_forall in Hpos.
          apply (Hpos _ Hin). }
        rewrite <- Ec in Hin. apply count_pairs_entry in Hin as [Hlt _].
        auto.
Qed.

Lemma tab2_under_slider_witness :
  5 <= 15 <= 30
  /\ exists res,
      tab2_pairs_df [mkRow 1 "A" "Morning"; mkRow 1 "B" "Morning"]
                    daypart_order [] 15 = Returns res
      /\ res = Some [mkPairsRow "A" "B" 1 "A + B"].
Proof.
  split; [lia|].
  destruct (tab2_under_slider [mkRow 1 "A" "Morning"; mkRow 1 "B" "Morning"]
              daypart_order [] 15) as (res & Hres & _); [lia|].
  exists res. split; [exact Hres|].
  vm_compute in Hres. now inversion Hres.
Defined.

(** Outside the slider's range: with [top_n <= 0] the ranking is empty, so
    the frame built from it has no "Item 1" column and the tab raises
    [KeyError] as soon as there is a pair to show; with no pair it shows
    the note. *)
Theorem tab2_nonpositive_top_n (df : DataFrame) (dp it : list string) (top_n : Z) :
  top_n <= 0 ->
  tab2_pairs_df df dp it top_n
  = if truthy (count_pairs (groupby_TransactionNo (page_filtered_df df dp it)))
    then Raises "KeyError"
    else Returns None.
Proof.
  intros Hn. unfold tab2_pairs_df, get_item_pairs, most_common, bind.
  rewrite page_filtered_df_eq.
  destruct (truthy _); [|reflexivity].
  destruct (Z.ltb_spec top_n 0); [reflexivity|].
  replace top_n with 0 by lia. reflexivity.
Qed.

Lemma tab2_nonpositive_top_n_witness :
  0 <= 0
  /\ tab2_pairs_df [mkRow 1 "A" "Morning"; mkRow 1 "B" "Morning"]
                   daypart_order [] 0
     = Raises "KeyError".
Proof.
  split; [lia|].
  apply (tab2_nonpositive_top_n [mkRow 1 "A" "Morning"; mkRow 1 "B" "Morning"]
           daypart_order [] 0).
  lia.
Defined.

(** ** The day-part tab *)

Lemma series_get_map {V : Type} (f : string -> V) (keys : list string)
    (label : string) :
  series_get (map (fun s => (s, f s)) keys) label
  = if isin label keys then Some (f label) else None.
Proof.
  unfold isin. induction keys as [|s keys IH]; [reflexivity|].
  simpl. rewrite (String.eqb_sym label s).
  destruct (String.eqb_spec s label) as [->|Hs]; [reflexivity|exact IH].
Qed.

Lemma combine_map_same {A B C : Type} (f : A -> B) (g : A -> C) (l : list A) :
  combine (map f l) (map g l) = map (fun x => (f x, g x)) l.
Proof. induction l as [|x l IH]; simpl; congruence. Qed.

Lemma daypart_keys_isin (df : DataFrame) (label : string) :
  isin label (daypart_keys df) = isin label (map Daypart df).
Proof.
  apply Bool.eq_iff_eq_true. unfold daypart_keys, sorted_str.
  now rewrite !isin_In, stable_sort_In, (unique_In _ String.eqb_spec).
Qed.

Lemma daypart_rows_nonempty (df : DataFrame) (label : string) :
  isin label (map Daypart df) = true -> daypart_rows df label <> [].
Proof.
  rewrite isin_In, in_map_iff. intros (r & E & Hr) Hnil.
  assert (Hin : In r (daypart_rows df label)).
  { apply filter_In. split; [assumption|]. now apply String.eqb_eq. }
  rewrite Hnil in Hin. contradiction.
Qed.

Lemma nunique_le_length (fdf : DataFrame) :
  (nunique_TransactionNo fdf <= List.length fdf)%nat.
Proof.
  unfold nunique_TransactionNo.
  rewrite <- (length_map TransactionNo fdf). apply unique_length_le.
Qed.

(** The average basket size by day part has one cell per declared day
    part, in the declared order.  For a day part with rows the cell is the
    number of its rows divided by the number of its transactions, a number
    that is at least 1; for a day part without rows it is NaN.  No cell is
    infinite: the division never meets a zero. *)
Theorem avg_basket_by_daypart_cells (df : DataFrame) :
  map fst (avg_basket_by_daypart df) = daypart_order
  /\ Forall (fun e =>
               if isin (fst e) (map Daypart df)
               then exists q,
                   snd e = Num q
                   /\ q = (inject_Z (Z.of_nat (List.length (daypart_rows df (fst e))))
                           / inject_Z (Z.of_nat (nunique_TransactionNo
                                                   (daypart_rows df (fst e)))))%Q
                   /\ (1 <= q)%Q
               else snd e = NaN)
            (avg_basket_by_daypart df).
Proof.
  unfold avg_basket_by_daypart, series_reindex.
  split; [rewrite map_map; apply map_id|].
  rewrite Forall_map, Forall_forall. intros d _. cbn [fst snd].
  unfold series_truediv, items_by_daypart, trans_by_daypart.
  rewrite combine_map_same, map_map. cbn [fst snd].
  rewrite (series_get_map
             (fun s => cell_truediv
                         (Z.of_nat (List.length (daypart_rows df s)))
                         (Z.of_nat (nunique_TransactionNo (daypart_rows df s))))).
  rewrite daypart_keys_isin.
  destruct (isin d (map Daypart df)) eqn:Hd; [|reflexivity].
  pose proof (nunique_pos _ (daypart_rows_nonempty df d Hd)) as Hpos.
  pose proof (nunique_le_length (daypart_rows df d)) as Hle.
  unfold cell_truediv.
  destruct (Z.eqb_spec (Z.of_nat (nunique_TransactionNo (daypart_rows df d))) 0);
    [lia|].
  eexists. split; [reflexivity|]. split; [reflexivity|].
  apply Q_ratio_ge_1; lia.
Qed.

(** The transaction counts by day part have one cell per declared day
    part, in the declared order: the number of distinct transactions of the
    day part, at least 1, or NaN for a day part without rows. *)
Theorem daypart_trans_cells (df : DataFrame) :
  map fst (daypart_trans df) = daypart_order
  /\ Forall (fun e =>
               if isin (fst e) (map Daypart df)
               then snd e = Num (inject_Z (Z.of_nat (nunique_TransactionNo
                                                       (daypart_rows df (fst e)))))
                    /\ (1 <= nunique_TransactionNo (daypart_rows df (fst e)))%nat
               else snd e = NaN)
            (daypart_trans df).
Proof.
  unfold daypart_trans, series_reindex.
  split; [rewrite map_map; apply map_id|].
  rewrite Forall_map, Forall_forall. intros d _. cbn [fst snd].
  unfold trans_by_daypart. rewrite map_map. cbn [fst snd].
  rewrite (series_get_map
             (fun s => Num (inject_Z (Z.of_nat (nunique_TransactionNo
                                                  (daypart_rows df s)))))).
  rewrite daypart_keys_isin.
  destruct (isin d (map Daypart df)) eqn:Hd; [|reflexivity].
  split; [reflexivity|].
  apply nunique_pos, daypart_rows_nonempty, Hd.
Qed.

Lemma value_counts_nonempty (col : list string) :
  col <> [] -> value_counts col <> [].
Proof.
  destruct col as [|x col]; [congruence|]. intros _ E.
  assert (Hin : In x (map fst (value_counts (x :: col))))
    by (apply value_counts_keys_In; now left).
  rewrite E in Hin. contradiction.
Qed.

(** The expander of a day part is drawn exactly when the data has a row of
    that day part: the inner length test never fails.  Its table is then
    not empty, has at most 10 entries in order of non-increasing count, and
    each entry is an item of a row of that day part with a count of at
    least 1. *)
Theorem daypart_top_items_shown (df : DataFrame) (daypart : string) :
  daypart_top_items df daypart
  = (if isin daypart (map Daypart df)
     then Some (head 10 (value_counts (map Items (daypart_rows df daypart))))
     else None)
  /\ forall table,
      daypart_top_items df daypart = Some table ->
      table <> []
      /\ (List.length table <= 10)%nat
      /\ StronglySorted (fun x y => snd y <= snd x) table
      /\ Forall (fun e =>
                   1 <= snd e
                   /\ exists r, In r df /\ Daypart r = daypart /\ Items r = fst e)
                table.
Proof.
  unfold daypart_top_items.
  destruct (isin daypart (map Daypart df)) eqn:Hd;
    [|split; [reflexivity|discriminate]].
  set (vc := value_counts (map Items (daypart_rows df daypart))).
  assert (Hne : head 10 vc <> []).
  { unfold head. change (10 <? 0) with false. cbv iota.
    apply firstn_nonempty; [lia|].
    apply value_counts_nonempty. intros E. apply map_eq_nil in E.
    now apply (daypart_rows_nonempty df daypart Hd). }
  assert (Hlen : (0 <? List.length (head 10 vc))%nat = true).
  { apply Nat.ltb_lt. destruct (head 10 vc); [congruence|simpl; lia]. }
  cbv zeta. fold vc. rewrite Hlen. split; [reflexivity|].
  intros table E. inversion E; subst table; clear E.
  split; [exact Hne|].
  unfold head in *. change (10 <? 0) with false in *. cbv iota in *.
  split; [rewrite length_firstn; lia|].
  split; [apply StronglySorted_firstn, sort_desc_sorted|].
  rewrite Forall_forall. intros [x v] Hin. cbn [fst snd].
  assert (Hin' : In (x, v) vc).
  { rewrite <- (firstn_skipn (Z.to_nat 10) vc). apply in_or_app. now left. }
  pose proof (value_counts_wf (map Items (daypart_rows df daypart))) as [_ Hpos].
  rewrite Forall_forall in Hpos. split; [apply (Hpos _ Hin')|].
  assert (Hk : In x (map fst vc)) by (apply in_map_iff; now exists (x, v)).
  apply (proj1 (value_counts_keys_In _ _)) in Hk.
  apply in_map_iff in Hk as (r & Hx & Hr).
  apply filter_In in Hr as [Hr Hdp]. apply String.eqb_eq in Hdp.
  now exists r.
Qed.

(** ** The comparison tab *)

Lemma filtered_df_nil (dp it : option (list string)) : filtered_df [] dp it = [].
Proof. now rewrite filtered_df_spec. Qed.

Lemma daypart_pairs_rows_spec (df : DataFrame) (items_filter dayparts : list string) :
  exists rows,
    daypart_pairs_rows df items_filter dayparts = Returns rows
    /\ (List.length rows <= 10 * List.length dayparts)%nat
    /\ Forall (fun r => In (Time_of_Day r) dayparts /\ 1 <= Pair_count r) rows
    /\ (df = [] -> rows = []).
Proof.
  induction dayparts as [|d dayparts (more & Emore & Hlen & Hall & Hnil)].
  - exists []. repeat split; simpl; auto.
  - cbn [daypart_pairs_rows].
    unfold get_item_pairs, most_common, bind. change (10 <? 0) with false.
    cbv iota. rewrite Emore.
    set (c := count_pairs
                (groupby_TransactionNo
                   (filtered_df df (Some [d]) (or_None items_filter)))).
    eexists. split; [reflexivity|]. split; [|split].
    + rewrite length_app, length_map, length_firstn. simpl List.length. lia.
    + apply Forall_app. split.
      * rewrite Forall_map, Forall_forall. intros e He. cbn.
        split; [now left|].
        apply ranked_pairs_In in He.
        pose proof (count_pairs_wf
                      (groupby_TransactionNo
                         (filtered_df df (Some [d]) (or_None items_filter))))
          as [_ Hpos].
        rewrite Forall_forall in Hpos. apply (Hpos _ He).
      * eapply Forall_impl; [|exact Hall]. intros r [H1 H2].
        split; [now right|assumption].
    + intros ->. rewrite (Hnil eq_refl). subst c.
      rewrite filtered_df_nil. reflexivity.
Qed.

Lemma top_items_list_nonempty (df : DataFrame) :
  df <> [] -> top_items_list df <> [].
Proof.
  intros Hne. rewrite top_items_list_firstn.
  apply firstn_nonempty; [lia|].
  intros E. apply map_eq_nil in E. revert E.
  apply value_counts_nonempty. intros E. apply map_eq_nil in E. contradiction.
Qed.

(** The comparison tab raises nothing.  When it draws the heat map, the
    comparison table has between 1 and 40 rows, each for a declared day
    part and with a count of at least 1; some row of the data carries a top
    item, the rows of the heat map are the declared day parts, and its
    columns are the top items, each once. *)
Theorem tab4_heatmap_defined (df : DataFrame) (items_filter : list string) :
  exists res,
    tab4_heatmap df items_filter = Returns res
    /\ forall data hm,
        res = Some (data, hm) ->
        data <> []
        /\ (List.length data <= 40)%nat
        /\ Forall (fun r => In (Time_of_Day r) daypart_order /\ 1 <= Pair_count r)
                  data
        /\ (exists r, In r df /\ isin (Items r) (top_items_list df) = true)
        /\ index hm = daypart_order
        /\ Permutation (columns hm) (top_items_list df).
Proof.
  unfold tab4_heatmap, daypart_pairs_data.
  destruct (daypart_pairs_rows_spec df items_filter daypart_order)
    as (rows & Erows & Hlen & Hall & Hnil).
  rewrite Erows. unfold bind.
  destruct rows as [|r0 rows].
  - exists None. split; [reflexivity|]. intros data hm E. discriminate.
  - change (truthy (r0 :: rows)) with true. cbv iota.
    eexists. split; [reflexivity|].
    intros data hm E. inversion E; subst data hm; clear E.
    assert (Hdf : df <> []) by (intros Hdf; specialize (Hnil Hdf); discriminate).
    split; [discriminate|]. split; [exact Hlen|]. split; [exact Hall|].
    split; [|split; [reflexivity|]].
    + pose proof (top_items_list_nonempty df Hdf) as Htop.
      destruct (top_items_list df) as [|x top] eqn:Etop; [congruence|].
      assert (Hx : In x (top_items_list df)) by (rewrite Etop; now left).
      destruct (top_items_list_In df x Hx) as (r & Hr & Hi).
      exists r. split; [assumption|]. apply isin_In. rewrite Hi. now left.
    + apply NoDup_Permutation.
      * unfold heatmap_data, reindex, size_unstack, sorted_str. simpl.
        apply stable_sort_NoDup, unique_NoDup, String.eqb_spec.
      * apply top_items_list_NoDup.
      * intros i. rewrite heatmap_columns_In. split; [tauto|].
        intros H. split; [assumption|]. now apply top_items_list_In.
Qed.

(** ** Groups and pivot cells partition the rows *)

Section Classes.
Context {A K : Type} (K_eqb : K -> K -> bool).
Hypothesis K_eqb_spec : forall x y, reflect (x = y) (K_eqb x y).

Lemma indicator_sum_out (y : K) (ks : list K) :
  ~ In y ks ->
  list_sum (map (fun k => if K_eqb y k then 1 else 0)%nat ks) = 0%nat.
Proof.
  induction ks as [|k ks IH]; simpl; intros Hy; [reflexivity|].
  destruct (K_eqb_spec y k) as [->|_]; [tauto|]. apply IH. tauto.
Qed.

Lemma indicator_sum_in (y : K) (ks : list K) :
  NoDup ks -> In y ks ->
  list_sum (map (fun k => if K_eqb y k then 1 else 0)%nat ks) = 1%nat.
Proof.
  induction 1 as [|k ks Hk Hnd IH]; simpl; intros Hy; [contradiction|].
  destruct (K_eqb_spec y k) as [->|Hne].
  - now rewrite indicator_sum_out.
  - apply IH. destruct Hy; congruence.
Qed.

(** Every element falls in exactly one class. *)
Lemma class_sizes_sum (f : A -> K) (ks : list K) (l : list A) :
  NoDup ks -> (forall x, In x l -> In (f x) ks) ->
  list_sum (map (fun k => List.length (filter (fun x => K_eqb (f x) k) l)) ks)
  = List.length l.
Proof.
  intros Hnd. induction l as [|x l IH]; intros Hcov.
  - clear. induction ks as [|k ks IHk]; simpl; [reflexivity|exact IHk].
  - transitivity
      (list_sum (map (fun k => if K_eqb (f x) k then 1 else 0)%nat ks)
       + list_sum (map (fun k =>
                          List.length (filter (fun x0 => K_eqb (f x0) k) l)) ks))%nat.
    + clear. unfold list_sum. induction ks as [|k ks IHk]; [reflexivity|].
      cbn [map fold_right]. rewrite IHk. cbn [filter].
      destruct (K_eqb (f x) k); simpl List.length; lia.
    + rewrite indicator_sum_in by (auto; apply Hcov; now left).
      rewrite IH by (intros; apply Hcov; now right). reflexivity.
Qed.
End Classes.

Lemma Zsum_of_nat {A : Type} (n : A -> nat) (l : list A) :
  Zsum (map (fun x => Z.of_nat (n x)) l) = Z.of_nat (list_sum (map n l)).
Proof.
  unfold Zsum. induction l as [|x l IH]; simpl; [reflexivity|]. lia.
Qed.

(** The groups come in ascending order of the transaction number, and they
    split the rows: their sizes add up to the number of rows. *)
Theorem groupby_partitions_rows (fdf : DataFrame) :
  StronglySorted Z.lt (map fst (groupby_TransactionNo fdf))
  /\ list_sum (map (fun g => List.length (snd g)) (groupby_TransactionNo fdf))
     = List.length fdf.
Proof.
  split.
  - rewrite groupby_keys. unfold sorted_Z.
    apply StronglySorted_impl_In with (R := fun a b => Z.leb a b = true).
    + intros x y _ _ Hne Hle. apply Z.leb_le in Hle. lia.
    + apply stable_sort_NoDup, unique_NoDup, Z_eqb_spec.
    + apply stable_sort_sorted; intros; lia.
  - unfold groupby_TransactionNo. rewrite map_map. cbn [snd].
    erewrite map_ext by (intros t; apply length_map).
    apply (class_sizes_sum Z.eqb Z_eqb_spec TransactionNo).
    + unfold sorted_Z. apply stable_sort_NoDup, unique_NoDup, Z_eqb_spec.
    + intros r Hr. unfold sorted_Z.
      rewrite stable_sort_In, (unique_In _ Z_eqb_spec). now apply in_map.
Qed.

(** In the pivot before re-indexing, the cells of a row add up to the number
    of selected rows of that day part, and all the cells together to the
    number of selected rows. *)
Theorem size_unstack_totals (sel : DataFrame) :
  Forall2 (fun s row => Zsum row = Z.of_nat (List.length (daypart_rows sel s)))
          (index (size_unstack sel)) (values (size_unstack sel))
  /\ Zsum (map Zsum (values (size_unstack sel))) = Z.of_nat (List.length sel).
Proof.
  unfold size_unstack. cbn [index values columns].
  set (cols := sorted_str (unique String.eqb (map Items sel))).
  set (idx := sorted_str (unique String.eqb (map Daypart sel))).
  assert (Hrow : forall s,
             Zsum (map (fun i => group_size sel s i) cols)
             = Z.of_nat (List.length (daypart_rows sel s))).
  { intros s. unfold group_size. rewrite Zsum_of_nat. f_equal.
    erewrite map_ext
      by (intros i; unfold daypart_rows;
          now rewrite <- (filter_filter_andb
                            (fun r => String.eqb (Daypart r) s)
                            (fun r => String.eqb (Items r) i) sel)).
    apply (class_sizes_sum String.eqb String.eqb_spec Items).
    - apply stable_sort_NoDup, unique_NoDup, String.eqb_spec.
    - intros r Hr. apply filter_In in Hr as [Hr _]. unfold cols, sorted_str.
      rewrite stable_sort_In, (unique_In _ String.eqb_spec). now apply in_map. }
  split.
  - induction idx as [|s idx IH]; simpl; constructor; auto.
  - rewrite map_map. erewrite map_ext by (intros s; apply Hrow).
    rewrite Zsum_of_nat. f_equal.
    apply (class_sizes_sum String.eqb String.eqb_spec Daypart).
    + apply stable_sort_NoDup, unique_NoDup, String.eqb_spec.
    + intros r Hr. unfold idx, sorted_str.
      rewrite stable_sort_In, (unique_In _ String.eqb_spec). now apply in_map.
Qed.

(** ** The sidebar *)

(** The options of the item filter are the items of the data, each once,
    in strictly ascending order. *)
Theorem items_options_sorted (df : DataFrame) :
  StronglySorted (fun a b => String.ltb a b = true) (items_options df)
  /\ forall x, In x (items_options df) <-> exists r, In r df /\ Items r = x.
Proof.
  unfold items_options. split.
  - apply sorted_str_strict, unique_NoDup, String.eqb_spec.
  - intros x. unfold sorted_str.
    rewrite stable_sort_In, (unique_In _ String.eqb_spec), in_map_iff.
    split; intros (r & H1 & H2); exists r; auto.
Qed.
